(** * pokemon-sales-tracker: the extraction-and-append pipeline of flask_server.py

    A shallow embedding of [src/flask_server.py]: the functions
    [initialize_google_sheets], [test_google_sheets_connection],
    [analyze_with_llm], [process] and [health].

    - Python values are the JSON values the handlers receive and the output
      parser returns ([value]); a [str] is its sequence of Unicode code points.
    - Every call that leaves the process (the language-model chain, the
      credential file, the spreadsheet client, the clock) is an operation [op];
      a program is a finite tree of such calls ([prog]), and [run] plays it
      against an environment that answers each call from the history of the
      calls made so far, returning the result and the calls made.
    - An exception is its message ([Raise msg], the text of [str(e)]); every
      exception of the model is an [Exception], so each [except Exception]
      catches it.  [print] is not modelled, apart from the expressions it
      evaluates that can raise. *)

From Stdlib Require Import List NArith ZArith Bool String Ascii PrimFloat Lia.
Import ListNotations.

Set Implicit Arguments.
Set Warnings "-inexact-float".

(** ** Strings *)

Definition pystr := list N.

Definition py (s : string) : pystr := map N_of_ascii (list_ascii_of_string s).
Arguments py : simpl never.

Fixpoint pystr_eqb (a b : pystr) : bool :=
  match a, b with
  | [], [] => true
  | x :: a', y :: b' => N.eqb x y && pystr_eqb a' b'
  | _, _ => false
  end.

(** [str.isspace] of one character: the code points CPython's
    [_PyUnicode_IsWhitespace] accepts. *)
Definition isspace (c : N) : bool :=
  ((9 <=? c) && (c <=? 13) || (28 <=? c) && (c <=? 32)
   || (c =? 133) || (c =? 160) || (c =? 5760)
   || (8192 <=? c) && (c <=? 8202)
   || (c =? 8232) || (c =? 8233) || (c =? 8239) || (c =? 8287)
   || (c =? 12288))%N.

Fixpoint lstrip (s : pystr) : pystr :=
  match s with
  | c :: s' => if isspace c then lstrip s' else s
  | [] => []
  end.

(** [s.strip()] *)
Definition strip (s : pystr) : pystr := rev (lstrip (rev (lstrip s))).

Definition digit (n : N) : N := (48 + n)%N.

Fixpoint digits_of_uint (u : Decimal.uint) : pystr :=
  match u with
  | Decimal.Nil => []
  | Decimal.D0 u' => digit 0 :: digits_of_uint u'
  | Decimal.D1 u' => digit 1 :: digits_of_uint u'
  | Decimal.D2 u' => digit 2 :: digits_of_uint u'
  | Decimal.D3 u' => digit 3 :: digits_of_uint u'
  | Decimal.D4 u' => digit 4 :: digits_of_uint u'
  | Decimal.D5 u' => digit 5 :: digits_of_uint u'
  | Decimal.D6 u' => digit 6 :: digits_of_uint u'
  | Decimal.D7 u' => digit 7 :: digits_of_uint u'
  | Decimal.D8 u' => digit 8 :: digits_of_uint u'
  | Decimal.D9 u' => digit 9 :: digits_of_uint u'
  end.

(** [str(n)] of an [int] *)
Definition str_of_int (z : Z) : pystr :=
  match z with
  | Zneg p => 45%N :: digits_of_uint (Pos.to_uint p)
  | _ => digits_of_uint (N.to_uint (Z.to_N z))
  end.

(** ** Values *)

#[warnings="-register-all"]
Inductive value : Type :=
| VNone
| VBool (b : bool)
| VInt (z : Z)
| VFloat (f : float)
| VStr (s : pystr)
| VList (l : list value)
| VDict (d : list (pystr * value)).

Definition is_nil {A} (l : list A) : bool :=
  match l with [] => true | _ => false end.

(** [bool(v)] *)
Definition truthy (v : value) : bool :=
  match v with
  | VNone => false
  | VBool b => b
  | VInt z => negb (Z.eqb z 0)
  | VFloat f => negb (PrimFloat.eqb f 0%float)
  | VStr s => negb (is_nil s)
  | VList l => negb (is_nil l)
  | VDict d => negb (is_nil d)
  end.

Definition type_name (v : value) : pystr :=
  match v with
  | VNone => py "NoneType"
  | VBool _ => py "bool"
  | VInt _ => py "int"
  | VFloat _ => py "float"
  | VStr _ => py "str"
  | VList _ => py "list"
  | VDict _ => py "dict"
  end.

(** A [dict] is the list of its items; a key is looked up from the front. *)
Fixpoint lookup (k : pystr) (d : list (pystr * value)) : option value :=
  match d with
  | [] => None
  | (k', v) :: d' => if pystr_eqb k k' then Some v else lookup k d'
  end.

(** ** Exceptions *)

Inductive res (A : Type) : Type :=
| Ok (a : A)
| Raise (msg : pystr).
Arguments Raise {A} msg.

Definition res_bind {A B} (m : res A) (f : A -> res B) : res B :=
  match m with
  | Ok a => f a
  | Raise msg => Raise msg
  end.

Notation "x <-! m ;; k" := (res_bind m (fun x => k))
  (at level 61, m at next level, right associativity).

(** [v.get(k, default)]: an [AttributeError] on anything but a [dict]. *)
Definition get (v : value) (k : pystr) (default : value) : res value :=
  match v with
  | VDict d =>
      Ok (match lookup k d with Some x => x | None => default end)
  | _ =>
      Raise (py "'" ++ type_name v ++ py "' object has no attribute 'get'")
  end.

(** ** The clock *)

Record datetime : Type := {
  year : N; month : N; day : N;
  hour : N; minute : N; second : N; microsecond : N
}.

Definition pad2 (n : N) : pystr := [digit (n / 10); digit (n mod 10)]%N.

Definition pad4 (n : N) : pystr := (pad2 (n / 100) ++ pad2 (n mod 100))%N.

Definition pad6 (n : N) : pystr :=
  (pad2 (n / 10000) ++ pad2 ((n / 100) mod 100) ++ pad2 (n mod 100))%N.

(** [dt.strftime("%Y-%m-%d %H:%M:%S")] *)
Definition strftime (dt : datetime) : pystr :=
  pad4 (year dt) ++ py "-" ++ pad2 (month dt) ++ py "-" ++ pad2 (day dt)
  ++ py " " ++ pad2 (hour dt) ++ py ":" ++ pad2 (minute dt) ++ py ":"
  ++ pad2 (second dt).

(** [dt.isoformat()] *)
Definition isoformat (dt : datetime) : pystr :=
  pad4 (year dt) ++ py "-" ++ pad2 (month dt) ++ py "-" ++ pad2 (day dt)
  ++ py "T" ++ pad2 (hour dt) ++ py ":" ++ pad2 (minute dt) ++ py ":"
  ++ pad2 (second dt)
  ++ (if (microsecond dt =? 0)%N then [] else py "." ++ pad6 (microsecond dt)).




(** ** External calls and programs *)

Inductive op : Type -> Type :=
| ChainInvoke (email_body : value) : op (res value)
    (* payout_chain.invoke({"email_body": email_body}) *)
| PathExists : op bool
    (* os.path.exists("service_account.json") *)
| FromServiceAccountFile : op (res unit)
| Authorize : op (res unit)
| OpenByUrl : op (res unit)
| Worksheet : op (res unit)
    (* spreadsheet.worksheet("Sale List") *)
| RowCount : op (res unit)
    (* worksheet.row_count *)
| AppendRow (row : list pystr) : op (res unit)
    (* worksheet.append_row(row) *)
| Now : op datetime.

Inductive event : Type :=
| Ev {X : Type} (o : op X) (reply : X).

Definition history := list event.

Definition env := forall X : Type, op X -> history -> X.

Inductive prog (A : Type) : Type :=
| Ret (a : A)
| Call {X : Type} (o : op X) (k : X -> prog A).
Arguments Ret {A} a.
Arguments Call {A X} o k.

Fixpoint prog_bind {A B} (m : prog A) (f : A -> prog B) : prog B :=
  match m with
  | Ret a => f a
  | Call o k => Call o (fun x => prog_bind (k x) f)
  end.

(** [run e p h]: the result of [p] and the calls it made, in an environment
    [e] that has already seen the calls [h]. *)
Fixpoint run {A} (e : env) (p : prog A) (h : history) : A * list event :=
  match p with
  | Ret a => (a, [])
  | Call o k =>
      let x := e _ o h in
      let (a, tr) := run e (k x) (h ++ [Ev o x]) in
      (a, Ev o x :: tr)
  end.

Notation "x <~ m ;; k" := (prog_bind m (fun x => k))
  (at level 61, m at next level, right associativity).

(** Programs that may raise. *)
Definition M (A : Type) : Type := prog (res A).

Definition ret {A} (a : A) : M A := Ret (Ok a).
Definition raise {A} (msg : pystr) : M A := Ret (Raise msg).
Definition lift {A} (r : res A) : M A := Ret r.
Definition ask {X} (o : op X) : M X := Call o (fun x => Ret (Ok x)).
Definition call {X} (o : op (res X)) : M X := Call o (fun r => Ret r).
Definition total {A} (p : prog A) : M A := prog_bind p (fun a => Ret (Ok a)).

Definition bind {A B} (m : M A) (f : A -> M B) : M B :=
  prog_bind m (fun r =>
    match r with
    | Ok a => f a
    | Raise msg => Ret (Raise msg)
    end).

Notation "x <- m ;; k" := (bind m (fun x => k))
  (at level 61, m at next level, right associativity).

(** [try: body  except Exception as e: handler(str(e))] *)
Definition try_except {A} (body : M A) (handler : pystr -> M A) : M A :=
  prog_bind body (fun r =>
    match r with
    | Ok a => Ret (Ok a)
    | Raise msg => handler msg
    end).

(** ** flask_server.py *)

Definition max_retries : nat := 3.

(** [range(n)] *)
Definition range (n : nat) : list nat := seq 0 n.

(** How a [for] loop is left: control goes on after the loop with the loop's
    variables, or the enclosing function has returned. *)
Inductive exit (S : Type) : Type :=
| Next (s : S)
| Return (v : value).
Arguments Return {S} v.

(** The pair [client, worksheet]; the handles are opaque. *)
Definition handles : Type := option unit * option unit.

(** What the model leaves to the Python interpreter: texts that no branch of
    the handlers looks into. *)
Record python : Type := {
  (** [str(v)] of a [float], a [list] or a [dict] *)
  repr : value -> pystr;
  (** the text of the exception [v[:200]] raises when [v] is no sequence *)
  slice_error : value -> pystr;
  (** the text of the exception [v[k]] raises when [v] has no item [k] *)
  item_error : value -> pystr -> pystr
}.

Section Interpreter.

Variable P : python.

(** [str(v)] *)
Definition str (v : value) : pystr :=
  match v with
  | VNone => py "None"
  | VBool true => py "True"
  | VBool false => py "False"
  | VInt z => str_of_int z
  | VStr s => s
  | _ => repr P v
  end.

Definition sliceable (v : value) : bool :=
  match v with
  | VStr _ | VList _ => true
  | _ => false
  end.

(** [v[:n]] *)
Definition slice (v : value) (n : nat) : res value :=
  match v with
  | VStr s => Ok (VStr (firstn n s))
  | VList l => Ok (VList (firstn n l))
  | _ => Raise (slice_error P v)
  end.

(** [v[k]] for a string key *)
Definition getitem (v : value) (k : pystr) : res value :=
  match v with
  | VDict d =>
      match lookup k d with
      | Some x => Ok x
      | None => Raise (item_error P v k)
      end
  | _ => Raise (item_error P v k)
  end.

(** *** initialize_google_sheets (lines 53-85) *)

Definition initialize_google_sheets : prog handles :=
  r <~ (found <- ask PathExists ;;
        if negb found then ret (None, None)
        else
          creds <- call FromServiceAccountFile ;;
          client <- call Authorize ;;
          spreadsheet <- call OpenByUrl ;;
          worksheet <- call Worksheet ;;
          try_except
            (_ <- call RowCount ;; ret (Some client, Some worksheet))
            (fun _ => ret (None, None))) ;;
  match r with
  | Ok cw => Ret cw
  | Raise _ => Ret (None, None)
  end.

(** *** test_google_sheets_connection (lines 87-106) *)

Definition test_google_sheets_connection : prog bool :=
  r <~ (cw <- total initialize_google_sheets ;;
        match snd cw with
        | Some worksheet =>
            now <- ask Now ;;
            let test_row := [strftime now; py "TEST_POKEMON"; py "0"] in
            _ <- call (AppendRow test_row) ;;
            ret true
        | None => ret false
        end) ;;
  match r with
  | Ok b => Ret b
  | Raise _ => Ret false
  end.

(** *** analyze_with_llm (lines 108-275) *)

(** Line 112. *)
Definition select_body (email_details : value) : res value :=
  b <-! get email_details (py "body") (VDict []) ;;
  t <-! get b (py "textBody") (VStr []) ;;
  if truthy t then Ok t
  else
    b' <-! get email_details (py "body") (VDict []) ;;
    get b' (py "htmlBody") (VStr []).

(** Line 133, raising as line 134 does. *)
Definition validate (email_response : value) : res unit :=
  let invalid := py "Invalid LLM response - missing pokemon_name or payout" in
  if negb (truthy email_response) then Raise invalid
  else
    n <-! get email_response (py "pokemon_name") VNone ;;
    if negb (truthy n) then Raise invalid
    else
      p <-! get email_response (py "payout") VNone ;;
      if negb (truthy p) then Raise invalid else Ok tt.

Definition no_content : value :=
  VDict [(py "email_type", VStr (py "no_content"));
         (py "confidence", VFloat 0.0);
         (py "error", VStr (py "No email body content found"))].

Definition llm_error (e : pystr) : value :=
  VDict [(py "email_type", VStr (py "llm_error"));
         (py "confidence", VFloat 0.0);
         (py "error",
          VStr (py "LLM extraction failed after "
                ++ str (VInt (Z.of_nat max_retries))
                ++ py " attempts: " ++ e))].

Definition extracted_data (pokemon_name payout : value) : value :=
  VDict [(py "pokemon_name", pokemon_name); (py "payout", payout)].

(** The dictionary of lines 160-168, and with another text of lines 259-267. *)
Definition sheets_error (pokemon_name payout : value) (text : pystr) : value :=
  VDict [(py "email_type", VStr (py "sheets_error"));
         (py "confidence", VFloat 0.8);
         (py "extracted_data", extracted_data pokemon_name payout);
         (py "error", VStr text)].

(** The dictionary of lines 207-215, and with another text of lines 249-257. *)
Definition append_error (pokemon_name payout : value) (text : pystr) : value :=
  VDict [(py "email_type", VStr (py "append_error"));
         (py "confidence", VFloat 0.8);
         (py "extracted_data", extracted_data pokemon_name payout);
         (py "error", VStr text)].

(** Lines 218-245. *)
Definition pokemon_sale (pokemon_name payout_amount current_time : pystr) : value :=
  VDict [(py "email_type", VStr (py "pokemon_sale"));
         (py "confidence", VFloat 0.95);
         (py "extracted_data",
          VDict [(py "pokemon_name", VStr pokemon_name);
                 (py "payout", VStr payout_amount);
                 (py "timestamp", VStr current_time)]);
         (py "key_insights",
          VList [VStr (py "Pokemon card sold: " ++ pokemon_name);
                 VStr (py "Payout amount: $" ++ payout_amount);
                 VStr (py "Sale recorded at: " ++ current_time)]);
         (py "financial_data",
          VDict [(py "payout", VStr payout_amount);
                 (py "currency", VStr (py "USD"))]);
         (py "product_info",
          VDict [(py "product_name", VStr pokemon_name);
                 (py "category", VStr (py "pokemon_card"))]);
         (py "recommendations",
          VList [VStr (py "Sale recorded successfully in Google Sheets");
                 VStr (py "Track similar sales for market analysis")]);
         (py "risk_assessment", VStr (py "low"));
         (py "market_analysis", VStr (py "Sale completed and recorded"))].

Definition analysis_error (e : pystr) : value :=
  VDict [(py "email_type", VStr (py "error"));
         (py "confidence", VFloat 0.0);
         (py "error", VStr (py "LLM Analysis Error: " ++ e))].

(** The [try] block of lines 129-136: the value [email_response] has
    afterwards, and whether the block reached its [break] or raised. *)
Definition extract_attempt (email_body email_response : value)
  : prog (value * res unit) :=
  r <~ Call (ChainInvoke email_body) Ret ;;
  match r with
  | Ok response => Ret (response, validate response)
  | Raise e => Ret (email_response, Raise e)
  end.

(** Lines 127-146. *)
Fixpoint extract_loop (email_body : value) (attempts : list nat)
    (email_response : value) : M (exit value) :=
  match attempts with
  | [] => ret (Next email_response)
  | attempt :: rest =>
      a <~ extract_attempt email_body email_response ;;
      match snd a with
      | Ok _ => ret (Next (fst a))
      | Raise e =>
          if Nat.eqb attempt (max_retries - 1)
          then ret (Return (llm_error e))
          else extract_loop email_body rest (fst a)
      end
  end.

(** Lines 150-169. *)
Fixpoint connect_loop (email_response : value) (attempts : list nat)
    (cw : handles) : M (exit handles) :=
  match attempts with
  | [] => ret (Next cw)
  | attempt :: rest =>
      cw' <~ initialize_google_sheets ;;
      match snd cw' with
      | Some _ => ret (Next cw')
      | None =>
          let e := py "Failed to initialize Google Sheets" in
          if Nat.eqb attempt (max_retries - 1)
          then
            n <- lift (getitem email_response (py "pokemon_name")) ;;
            p <- lift (getitem email_response (py "payout")) ;;
            ret (Return
                   (sheets_error n p
                      (py "Google Sheets connection failed after "
                       ++ str (VInt (Z.of_nat max_retries))
                       ++ py " attempts: " ++ e)))
          else connect_loop email_response rest cw'
      end
  end.

(** Lines 199-216. *)
Fixpoint append_loop (row_data : list pystr) (pokemon_name payout_amount : pystr)
    (attempts : list nat) : M (exit unit) :=
  match attempts with
  | [] => ret (Next tt)
  | attempt :: rest =>
      r <~ Call (AppendRow row_data) Ret ;;
      match r with
      | Ok _ => ret (Next tt)
      | Raise e =>
          if Nat.eqb attempt (max_retries - 1)
          then
            ret (Return
                   (append_error (VStr pokemon_name) (VStr payout_amount)
                      (py "Failed to append to Google Sheets after "
                       ++ str (VInt (Z.of_nat max_retries))
                       ++ py " attempts: " ++ e)))
          else append_loop row_data pokemon_name payout_amount rest
      end
  end.

(** Lines 184-187. *)
Definition clean_name (pokemon_name : pystr) : pystr :=
  if is_nil pokemon_name || pystr_eqb pokemon_name (py "N/A")
  then py "Unknown Pokemon" else pokemon_name.

Definition clean_payout (payout_amount : pystr) : pystr :=
  if is_nil payout_amount || pystr_eqb payout_amount (py "N/A")
  then py "0" else payout_amount.

(** The [try] block of lines 173-245. *)
Definition append_block (email_details email_response : value) : M value :=
  now <- ask Now ;;
  let current_time := strftime now in
  n <- lift (getitem email_response (py "pokemon_name")) ;;
  let pokemon_name := strip (str n) in
  p <- lift (getitem email_response (py "payout")) ;;
  let payout_amount := strip (str p) in
  f <- lift (get email_details (py "from") (VStr (py "N/A"))) ;;
  let email_from := strip (str f) in
  s <- lift (get email_details (py "subject") (VStr (py "N/A"))) ;;
  let email_subject := strip (str s) in
  let pokemon_name := clean_name pokemon_name in
  let payout_amount := clean_payout payout_amount in
  let row_data := [current_time; pokemon_name; payout_amount] in
  x <- append_loop row_data pokemon_name payout_amount (range max_retries) ;;
  match x with
  | Return v => ret v
  | Next _ => ret (pokemon_sale pokemon_name payout_amount current_time)
  end.

(** Lines 111-267, the body of the outer [try]. *)
Definition analyze_body (email_details parsed_data : value) : M value :=
  email_body <- lift (select_body email_details) ;;
  if negb (truthy email_body) then ret no_content
  else
    _ <- lift (slice email_body 200) ;;
    x <- extract_loop email_body (range max_retries) VNone ;;
    match x with
    | Return v => ret v
    | Next email_response =>
        y <- connect_loop email_response (range max_retries) (None, None) ;;
        match y with
        | Return v => ret v
        | Next (client, worksheet) =>
            match worksheet with
            | Some _ =>
                try_except
                  (append_block email_details email_response)
                  (fun e =>
                     n <- lift (getitem email_response (py "pokemon_name")) ;;
                     p <- lift (getitem email_response (py "payout")) ;;
                     ret (append_error n p
                            (py "Google Sheets append error: " ++ e)))
            | None =>
                n <- lift (getitem email_response (py "pokemon_name")) ;;
                p <- lift (getitem email_response (py "payout")) ;;
                ret (sheets_error n p (py "Google Sheets connection failed"))
            end
        end
    end.

Definition analyze_with_llm (email_details parsed_data : value) : prog value :=
  r <~ analyze_body email_details parsed_data ;;
  match r with
  | Ok v => Ret v
  | Raise e => Ret (analysis_error e)
  end.

(** *** process (lines 277-310): the status code and the JSON body *)

Definition process (request_json : res value) : prog (nat * value) :=
  r <~ (data <- lift request_json ;;
        email_details <- lift (get data (py "email_details") (VDict [])) ;;
        parsed_data <- lift (get data (py "parsed_data") (VDict [])) ;;
        timestamp <- lift (get data (py "timestamp") (VStr [])) ;;
        _ <- lift (get email_details (py "from") (VStr (py "N/A"))) ;;
        _ <- lift (get email_details (py "subject") (VStr (py "N/A"))) ;;
        _ <- lift (get parsed_data (py "emailType") (VStr (py "unknown"))) ;;
        llm_analysis <- total (analyze_with_llm email_details parsed_data) ;;
        ret (VDict [(py "status", VStr (py "success"));
                    (py "received_data",
                     VDict [(py "email_details", email_details);
                            (py "parsed_data", parsed_data);
                            (py "timestamp", timestamp)]);
                    (py "llm_analysis", llm_analysis)])) ;;
  match r with
  | Ok body => Ret (200, body)
  | Raise e => Ret (500, VDict [(py "error", VStr e)])
  end.

(** *** health (lines 312-323) *)

Definition health : prog (nat * value) :=
  sheets_status <~ test_google_sheets_connection ;;
  now <~ Call Now Ret ;;
  Ret (200,
       VDict [(py "status", VStr (py "healthy"));
              (py "service", VStr (py "email-llm-processor"));
              (py "timestamp", VStr (isoformat now));
              (py "google_sheets",
               VStr (if sheets_status then py "connected" else py "disconnected"));
              (py "groq_llm", VStr (py "available"))]).

End Interpreter.

(** ** What a run shows: readings of the calls made *)

Fixpoint pick {A B} (f : A -> option B) (l : list A) : list B :=
  match l with
  | [] => []
  | x :: l' =>
      match f x with
      | Some y => y :: pick f l'
      | None => pick f l'
      end
  end.

(** An extraction attempt: the text given to the chain and its reply. *)
Definition extraction (ev : event) : option (value * res value) :=
  match ev with
  | Ev o x =>
      match o in op X return X -> option (value * res value) with
      | ChainInvoke email_body => fun r => Some (email_body, r)
      | _ => fun _ => None
      end x
  end.

(** An append attempt: the row given to [append_row] and its reply. *)
Definition append (ev : event) : option (list pystr * res unit) :=
  match ev with
  | Ev o x =>
      match o in op X return X -> option (list pystr * res unit) with
      | AppendRow row => fun r => Some (row, r)
      | _ => fun _ => None
      end x
  end.

(** A reading of the clock. *)
Definition clock (ev : event) : option datetime :=
  match ev with
  | Ev o x =>
      match o in op X return X -> option datetime with
      | Now => fun dt => Some dt
      | _ => fun _ => None
      end x
  end.

(** The calls [initialize_google_sheets] makes. *)
Definition is_connect_call (ev : event) : bool :=
  match ev with
  | Ev PathExists _ | Ev FromServiceAccountFile _ | Ev Authorize _
  | Ev OpenByUrl _ | Ev Worksheet _ | Ev RowCount _ => true
  | _ => false
  end.

(** A connection attempt starts by looking for the credential file. *)
Definition starts_connect (ev : event) : bool :=
  match ev with
  | Ev PathExists _ => true
  | _ => false
  end.

(** The last step of a connection attempt went through. *)
Definition completes_connect (ev : event) : bool :=
  match ev with
  | Ev o x =>
      match o in op X return X -> bool with
      | RowCount => fun r => match r with Ok _ => true | Raise _ => false end
      | _ => fun _ => false
      end x
  end.

(** Any call to the ledger client: connecting or appending. *)
Definition is_ledger_call (ev : event) : bool :=
  is_connect_call ev || match append ev with Some _ => true | None => false end.

Definition extractions (tr : list event) : list (value * res value) :=
  pick extraction tr.
Definition appends (tr : list event) : list (list pystr * res unit) :=
  pick append tr.
Definition clock_readings (tr : list event) : list datetime := pick clock tr.
Definition connect_attempts (tr : list event) : nat :=
  List.length (filter starts_connect tr).
Definition connected (tr : list event) : bool := existsb completes_connect tr.
Definition ledger_calls (tr : list event) : list event :=
  filter is_ledger_call tr.

(** The reply passes the check of line 133. *)
Definition attempt_ok (r : res value) : bool :=
  match r with
  | Ok response => match validate response with Ok _ => true | Raise _ => false end
  | Raise _ => false
  end.

Definition extracted (tr : list event) : bool :=
  existsb (fun a => attempt_ok (snd a)) (extractions tr).

Definition append_ok (a : list pystr * res unit) : bool :=
  match snd a with Ok _ => true | Raise _ => false end.

Definition appended (tr : list event) : bool := existsb append_ok (appends tr).

(** The rows the worksheet gained: those of the appends that went through. *)
Definition rows_written (tr : list event) : list (list pystr) :=
  map fst (filter append_ok (appends tr)).

(** [v[k]] of a result dictionary, for reading results. *)
Definition field (k : string) (v : value) : option value :=
  match v with
  | VDict d => lookup (py k) d
  | _ => None
  end.

(** ** Stages of a run *)

(** The calls of one stage. *)
Definition invokes (email_body : value) (rs : list (res value)) : list event :=
  map (fun r => Ev (ChainInvoke email_body) r) rs.

Definition append_calls (row : list pystr) (rs : list (res unit)) : list event :=
  map (fun r => Ev (AppendRow row) r) rs.

Definition is_invoke (ev : event) : bool :=
  match extraction ev with Some _ => true | None => false end.

Definition is_append (ev : event) : bool :=
  match append ev with Some _ => true | None => false end.

Definition failed (r : res value) : bool := negb (attempt_ok r).

Definition connection_failed_text : pystr :=
  py "Google Sheets connection failed after 3 attempts: Failed to initialize Google Sheets".

Definition append_failed_text (e : pystr) : pystr :=
  py "Failed to append to Google Sheets after 3 attempts: " ++ e.

(** The two parts of the request's body as the payload gives them, [None]
    for a part that is missing; nothing when [body] is no object. *)
Definition body_parts (email_details : value)
  : option (option value * option value) :=
  match email_details with
  | VDict d =>
      match lookup (py "body") d with
      | None => Some (None, None)
      | Some (VDict b) =>
          Some (lookup (py "textBody") b, lookup (py "htmlBody") b)
      | Some _ => None
      end
  | _ => None
  end.

(** A part that is missing or empty. *)
Definition blank (part : option value) : bool :=
  match part with
  | Some v => negb (truthy v)
  | None => true
  end.

Definition part_or_empty (part : option value) : value :=
  match part with
  | Some v => v
  | None => VStr []
  end.

(** The rule for the text to extract from, in the words of the
    specification: the plain text unless it is blank, and then the markup. *)
Definition body_by_rule (text markup : option value) : value :=
  if blank text then part_or_empty markup else part_or_empty text.

Definition is_dict (v : value) : bool :=
  match v with
  | VDict _ => true
  | _ => false
  end.



(** The worksheet after the calls [tr], when it held [rows] before them. *)
Definition sheet_after (rows : list (list pystr)) (tr : list event)
  : list (list pystr) :=
  rows ++ rows_written tr.

(** The row [test_google_sheets_connection] appends at the time [now]. *)
Definition test_row (now : datetime) : list pystr :=
  [strftime now; py "TEST_POKEMON"; py "0"].

(** The body line 112 selects is text the chain can be given: it is not
    empty and line 121 can slice it (a [str], as an email body is, or a
    [list]). *)
Definition usable_body (email_details email_body : value) : Prop :=
  select_body email_details = Ok email_body
  /\ truthy email_body = true /\ sliceable email_body = true.

(** The extraction stage ended with the response [r], after the failed
    attempts [fails]; [n] and [p] are its two fields. *)
Definition extraction_done (P : python) (fails : list (res value))
    (r n p : value) : Prop :=
  forallb failed fails = true /\ List.length fails < 3
  /\ validate r = Ok tt
  /\ getitem P r (py "pokemon_name") = Ok n
  /\ getitem P r (py "payout") = Ok p.

(** The connection stage made the calls [tc] and ended with a worksheet. *)
Definition connection_done (tc : list event) : Prop :=
  forallb is_connect_call tc = true /\ connected tc = true
  /\ 1 <= connect_attempts tc <= 3.

(** The ways a call of [analyze_with_llm] ends: its result and its calls. *)
Inductive outcome (P : python) (email_details : value)
  : value -> list event -> Prop :=
| BadRequest e :
    select_body email_details = Raise e ->
    outcome P email_details (analysis_error e) []
| NoContent email_body :
    select_body email_details = Ok email_body ->
    truthy email_body = false ->
    outcome P email_details no_content []
| BadBody email_body :
    select_body email_details = Ok email_body ->
    truthy email_body = true ->
    sliceable email_body = false ->
    outcome P email_details (analysis_error (slice_error P email_body)) []
| ExtractionFailed email_body rs e :
    usable_body email_details email_body ->
    forallb failed rs = true -> List.length rs = 3 ->
    outcome P email_details (llm_error P e) (invokes email_body rs)
| LedgerUnavailable email_body fails r n p tc :
    usable_body email_details email_body ->
    extraction_done P fails r n p ->
    forallb is_connect_call tc = true -> connected tc = false ->
    connect_attempts tc = 3 ->
    outcome P email_details (sheets_error n p connection_failed_text)
      (invokes email_body (fails ++ [Ok r]) ++ tc)
| AppendFailed email_body fails r n p tc now m1 m2 m3 :
    usable_body email_details email_body ->
    extraction_done P fails r n p ->
    connection_done tc ->
    let pokemon_name := clean_name (strip (str P n)) in
    let payout_amount := clean_payout (strip (str P p)) in
    let row_data := [strftime now; pokemon_name; payout_amount] in
    outcome P email_details
      (append_error (VStr pokemon_name) (VStr payout_amount)
         (append_failed_text m3))
      (invokes email_body (fails ++ [Ok r]) ++ tc
       ++ Ev Now now :: append_calls row_data [Raise m1; Raise m2; Raise m3])
| Sale email_body fails r n p tc now afails :
    usable_body email_details email_body ->
    extraction_done P fails r n p ->
    connection_done tc ->
    List.length afails < 3 ->
    let pokemon_name := clean_name (strip (str P n)) in
    let payout_amount := clean_payout (strip (str P p)) in
    let row_data := [strftime now; pokemon_name; payout_amount] in
    outcome P email_details
      (pokemon_sale pokemon_name payout_amount (strftime now))
      (invokes email_body (fails ++ [Ok r]) ++ tc
       ++ Ev Now now :: append_calls row_data (map Raise afails ++ [Ok tt])).

(** ** Sample requests and environments *)

Definition sample_python : python :=
  {| repr := fun _ => py "<value>";
     slice_error := fun _ => py "object is not subscriptable";
     item_error := fun _ k => k |}.

Definition morning : datetime :=
  {| year := 2024; month := 1; day := 15;
     hour := 10; minute := 30; second := 5; microsecond := 0 |}.

(** An environment in which the [n]-th extraction is answered by [llm n],
    the credential file exists when [found], every other step of connecting
    goes through, the [n]-th append is answered by [appending n], and the
    clock stands at [morning]. *)
Definition scripted (llm : nat -> res value) (found : bool)
    (appending : nat -> res unit) : env :=
  fun X o h =>
    match o in op X return X with
    | ChainInvoke _ => llm (List.length (extractions h))
    | PathExists => found
    | FromServiceAccountFile => Ok tt
    | Authorize => Ok tt
    | OpenByUrl => Ok tt
    | Worksheet => Ok tt
    | RowCount => Ok tt
    | AppendRow _ => appending (List.length (appends h))
    | Now => morning
    end.

Definition sale_text : value :=
  VStr (py "Sale Price: $150.00, Total Payout: $135.00, item: Charizard VMAX").

Definition sale_markup : value :=
  VStr (py "<strong>Charizard VMAX</strong><br>TOTAL PAYOUT: $135.00").

Definition sale_email : value :=
  VDict [(py "from", VStr (py "cs@email.fanaticscollect.com"));
         (py "subject", VStr (py "Your Buy Now Sale is Complete!"));
         (py "body",
          VDict [(py "textBody", sale_text); (py "htmlBody", sale_markup)])].


Definition charizard : value :=
  VDict [(py "pokemon_name", VStr (py "Charizard VMAX"));
         (py "payout", VStr (py "135.00"))].

Definition blank_name : value :=
  VDict [(py "pokemon_name", VStr (py " ")); (py "payout", VStr (py "N/A"))].

Definition empty_name : value :=
  VDict [(py "pokemon_name", VStr []); (py "payout", VStr (py "N/A"))].

Definition working : env :=
  scripted (fun _ => Ok charizard) true (fun _ => Ok tt).


Definition no_credentials : env :=
  scripted (fun _ => Ok charizard) false (fun _ => Ok tt).

Definition quota_exceeded : env :=
  scripted (fun _ => Ok charizard) true (fun _ => Raise (py "quota exceeded")).

Definition blank_name_llm : env :=
  scripted (fun _ => Ok blank_name) true (fun _ => Ok tt).

Definition empty_name_llm : env :=
  scripted (fun _ => Ok empty_name) true (fun _ => Ok tt).

(** The first request an environment sees. *)
Definition analysis_of (e : env) (email_details : value) : value * list event :=
  run e (analyze_with_llm sample_python email_details (VDict [])) [].


Definition first_health : nat * value * list event := run working health [].

Definition second_health : nat * value * list event :=
  run working health (snd first_health).

Definition first_connect : handles * list event :=
  run working initialize_google_sheets [].

Definition second_connect : handles * list event :=
  run working initialize_google_sheets (snd first_connect).

(** ** Further readings of a run *)

(** Whatever satisfies [p] comes last. *)
Fixpoint none_after {A} (p : A -> bool) (l : list A) : bool :=
  match l with
  | [] => true
  | x :: l' => if p x then is_nil l' else none_after p l'
  end.


Definition is_some {A} (o : option A) : bool :=
  match o with
  | Some _ => true
  | None => false
  end.

(** The [email_type] values of the result dictionaries of
    [analyze_with_llm], each with the confidence its dictionary has. *)
Definition confidence_table : list (pystr * float) :=
  [(py "no_content", 0.0%float); (py "llm_error", 0.0%float);
   (py "sheets_error", 0.8%float); (py "append_error", 0.8%float);
   (py "pokemon_sale", 0.95%float); (py "error", 0.0%float)].

(** The results that have an [extracted_data]. *)
Definition carries_record (kind : pystr) : bool :=
  existsb (pystr_eqb kind)
    [py "sheets_error"; py "append_error"; py "pokemon_sale"].

(** No whitespace at either end. *)
Definition trimmed (s : pystr) : bool :=
  match s with
  | [] => true
  | c :: _ => negb (isspace c) && negb (isspace (last s c))
  end.

(** A row of three cells whose name and payout are filled in, trimmed and
    not "N/A". *)
Definition clean_row (row : list pystr) : bool :=
  match row with
  | [_; pokemon_name; payout_amount] =>
      negb (is_nil pokemon_name) && negb (is_nil payout_amount)
      && trimmed pokemon_name && trimmed payout_amount
      && negb (pystr_eqb pokemon_name (py "N/A"))
      && negb (pystr_eqb payout_amount (py "N/A"))
  | _ => false
  end.


Definition raised {A} (r : res A) : bool :=
  match r with
  | Ok _ => false
  | Raise _ => true
  end.

(** A step of connecting that did not go through. *)
Definition call_failed (ev : event) : bool :=
  match ev with
  | Ev o x =>
      match o in op X return X -> bool with
      | PathExists => fun found => negb found
      | FromServiceAccountFile => fun r => raised r
      | Authorize => fun r => raised r
      | OpenByUrl => fun r => raised r
      | Worksheet => fun r => raised r
      | RowCount => fun r => raised r
      | _ => fun _ => false
      end x
  end.

(** The calls of a connection attempt, by name and in the order of the code. *)
Inductive step : Type :=
| SExists | SCredentials | SAuthorize | SOpen | SWorksheet | SRowCount | SOther.

Definition step_of (ev : event) : step :=
  match ev with
  | Ev PathExists _ => SExists
  | Ev FromServiceAccountFile _ => SCredentials
  | Ev Authorize _ => SAuthorize
  | Ev OpenByUrl _ => SOpen
  | Ev Worksheet _ => SWorksheet
  | Ev RowCount _ => SRowCount
  | _ => SOther
  end.

Definition connect_steps : list step :=
  [SExists; SCredentials; SAuthorize; SOpen; SWorksheet; SRowCount].

(** *** test (lines 325-361) *)

Definition test_email_details : value :=
  VDict [(py "from", VStr (py "cs@email.fanaticscollect.com"));
         (py "to", VStr (py "user@gmail.com"));
         (py "subject",
          VStr (py "Your Buy Now Sale is Complete! " ++ [127881%N]));
         (py "date", VStr (py "2024-01-15T10:30:00Z"));
         (py "messageId", VStr (py "test123"));
         (py "body",
          VDict [(py "textBody",
                  VStr (py "Your Pokemon Charizard VMAX sale is complete. Sale Price: $150.00, Seller Fees: $15.00, Total Payout: $135.00"));
                 (py "htmlBody",
                  VStr (py "<strong>Pokemon Charizard VMAX</strong><br>SALE PRICE: $150.00<br>SELLER FEES: $15.00<br>TOTAL PAYOUT: $135.00"))]);
         (py "attachments", VList [])].

Definition test_parsed_data : value :=
  VDict [(py "emailType", VStr (py "fanatics_sale"));
         (py "isFanaticsSale", VBool true);
         (py "saleDetails",
          VDict [(py "productName", VStr (py "Pokemon Charizard VMAX"));
                 (py "salePrice", VStr (py "$150.00"));
                 (py "sellerFees", VStr (py "$15.00"));
                 (py "totalPayout", VStr (py "$135.00"))]);
         (py "isPokemonRelated", VBool true)].

(** The dictionary [test_data], built at the time [now]. *)
Definition test_data (now : datetime) : value :=
  VDict [(py "email_details", test_email_details);
         (py "parsed_data", test_parsed_data);
         (py "timestamp", VStr (isoformat now))].

(** The keys read at line 355 are those of the literal above. *)
Definition test (P : python) : prog (nat * value) :=
  now <~ Call Now Ret ;;
  llm_analysis <~ analyze_with_llm P test_email_details test_parsed_data ;;
  Ret (200,
       VDict [(py "status", VStr (py "test_success"));
              (py "test_data", test_data now);
              (py "llm_analysis", llm_analysis)]).

(** ** test_google_sheets.py *)

Module Diagnostic.

(** What the script reads of a listed worksheet. *)
Record sheet : Type := {
  title : pystr; id : Z; row_count : Z; col_count : Z
}.

Inductive op : Type -> Type :=
| PathExists : op bool
    (* os.path.exists("service_account.json") *)
| FromServiceAccountFile : op (res unit)
| Authorize : op (res unit)
| OpenByUrl : op (res unit)
| SpreadsheetTitle : op (res pystr)
    (* spreadsheet.title *)
| Worksheets : op (res (list sheet))
    (* spreadsheet.worksheets() *)
| AddWorksheet : op (res unit)
    (* spreadsheet.add_worksheet(title="Sheet5", rows=1000, cols=10) *)
| InsertRow (row : list pystr) (index : nat) : op (res unit)
    (* sheet5.insert_row(row, index) *)
| GetAllValues : op (res (list (list pystr)))
    (* sheet5.get_all_values() *)
| AppendRow (row : list pystr) : op (res unit)
    (* sheet5.append_row(row) *)
| Now : op datetime.

Inductive event : Type :=
| Ev {X : Type} (o : op X) (reply : X).

Definition env := forall X : Type, op X -> list event -> X.

Inductive prog (A : Type) : Type :=
| Ret (a : A)
| Call {X : Type} (o : op X) (k : X -> prog A).
Arguments Ret {A} a.
Arguments Call {A X} o k.

Fixpoint prog_bind {A B} (m : prog A) (f : A -> prog B) : prog B :=
  match m with
  | Ret a => f a
  | Call o k => Call o (fun x => prog_bind (k x) f)
  end.

Fixpoint run {A} (e : env) (p : prog A) (h : list event) : A * list event :=
  match p with
  | Ret a => (a, [])
  | Call o k =>
      let x := e _ o h in
      let (a, tr) := run e (k x) (h ++ [Ev o x]) in
      (a, Ev o x :: tr)
  end.

Definition M (A : Type) : Type := prog (res A).

Definition ret {A} (a : A) : M A := Ret (Ok a).
Definition ask {X} (o : op X) : M X := Call o (fun x => Ret (Ok x)).
Definition call {X} (o : op (res X)) : M X := Call o (fun r => Ret r).

Definition bind {A B} (m : M A) (f : A -> M B) : M B :=
  prog_bind m (fun r =>
    match r with
    | Ok a => f a
    | Raise msg => Ret (Raise msg)
    end).

Definition try_except {A} (body : M A) (handler : pystr -> M A) : M A :=
  prog_bind body (fun r =>
    match r with
    | Ok a => Ret (Ok a)
    | Raise msg => handler msg
    end).

Notation "x <~~ m ;; k" := (prog_bind m (fun x => k))
  (at level 61, m at next level, right associativity).
Notation "x <-- m ;; k" := (bind m (fun x => k))
  (at level 61, m at next level, right associativity).

Definition headers : list pystr :=
  [py "Timestamp"; py "Pokemon Name"; py "Payout Amount"].

Definition test_row (now : datetime) : list pystr :=
  [strftime now; py "TEST_POKEMON_CHARIZARD"; py "999.99"].

(** Lines 66-70. *)
Definition sheet5_exists (worksheets : list sheet) : bool :=
  existsb (fun ws => pystr_eqb (title ws) (py "Sheet5")) worksheets.

(** test_google_sheets_connection (lines 12-148).  A step that ends the
    function with [return False] yields [None]; the steps after it run only
    on [Some]. *)
Definition test_google_sheets_connection : prog bool :=
  found <~~ Call PathExists Ret ;;
  if negb found then Ret false
  else
    r <~~ (creds <-- call FromServiceAccountFile ;;
           client <-- call Authorize ;;
           spreadsheet <--
             try_except
               (s <-- call OpenByUrl ;;
                _ <-- call SpreadsheetTitle ;;
                ret (Some s))
               (fun _ => ret None) ;;
           match spreadsheet with
           | None => ret false
           | Some _ =>
               worksheets <-- call Worksheets ;;
               sheet5 <--
                 (if sheet5_exists worksheets then ret (Some tt)
                  else
                    try_except
                      (s <-- call AddWorksheet ;;
                       _ <-- call (InsertRow headers 1) ;;
                       ret (Some s))
                      (fun _ => ret None)) ;;
               match sheet5 with
               | None => ret false
               | Some _ =>
                   all_values <--
                     try_except
                       (v <-- call GetAllValues ;; ret (Some v))
                       (fun _ => ret None) ;;
                   match all_values with
                   | None => ret false
                   | Some _ =>
                       written <--
                         try_except
                           (now <-- ask Now ;;
                            _ <-- call (AppendRow (test_row now)) ;;
                            ret true)
                           (fun _ => ret false) ;;
                       if negb written then ret false
                       else
                         try_except
                           (_ <-- call GetAllValues ;; ret true)
                           (fun _ => ret false)
                   end
               end
           end) ;;
    match r with
    | Ok b => Ret b
    | Raise _ => Ret false
    end.

(** A call that did not go through. *)
Definition call_failed (ev : event) : bool :=
  match ev with
  | Ev o x =>
      match o in op X return X -> bool with
      | PathExists => fun found => negb found
      | FromServiceAccountFile => fun r => raised r
      | Authorize => fun r => raised r
      | OpenByUrl => fun r => raised r
      | SpreadsheetTitle => fun r => raised r
      | Worksheets => fun r => raised r
      | AddWorksheet => fun r => raised r
      | InsertRow _ _ => fun r => raised r
      | GetAllValues => fun r => raised r
      | AppendRow _ => fun r => raised r
      | Now => fun _ => false
      end x
  end.

(** The worksheets a run was told of, when it listed them. *)
Definition listing (ev : event) : option (list sheet) :=
  match ev with
  | Ev o x =>
      match o in op X return X -> option (list sheet) with
      | Worksheets => fun r => match r with Ok l => Some l | Raise _ => None end
      | _ => fun _ => None
      end x
  end.

(** The calls that change the spreadsheet. *)
Inductive change : Type :=
| Added
| Inserted (row : list pystr) (index : nat)
| Appended (row : list pystr).

Definition change_of (ev : event) : option change :=
  match ev with
  | Ev AddWorksheet _ => Some Added
  | Ev (InsertRow row index) _ => Some (Inserted row index)
  | Ev (AppendRow row) _ => Some (Appended row)
  | _ => None
  end.

Definition changes (tr : list event) : list change := pick change_of tr.

Definition clock (ev : event) : option datetime :=
  match ev with
  | Ev o x =>
      match o in op X return X -> option datetime with
      | Now => fun dt => Some dt
      | _ => fun _ => None
      end x
  end.

Definition is_file_check (ev : event) : bool :=
  match ev with
  | Ev PathExists _ => true
  | _ => false
  end.

Definition is_read (ev : event) : bool :=
  match ev with
  | Ev GetAllValues _ => true
  | _ => false
  end.

End Diagnostic.

(** The method a call of the script goes to. *)
Definition call_name (ev : Diagnostic.event) : string :=
  match ev with
  | Diagnostic.Ev Diagnostic.PathExists _ => "exists"%string
  | Diagnostic.Ev Diagnostic.FromServiceAccountFile _ => "from_service_account_file"%string
  | Diagnostic.Ev Diagnostic.Authorize _ => "authorize"%string
  | Diagnostic.Ev Diagnostic.OpenByUrl _ => "open_by_url"%string
  | Diagnostic.Ev Diagnostic.SpreadsheetTitle _ => "title"%string
  | Diagnostic.Ev Diagnostic.Worksheets _ => "worksheets"%string
  | Diagnostic.Ev Diagnostic.AddWorksheet _ => "add_worksheet"%string
  | Diagnostic.Ev (Diagnostic.InsertRow _ _) _ => "insert_row"%string
  | Diagnostic.Ev Diagnostic.GetAllValues _ => "get_all_values"%string
  | Diagnostic.Ev (Diagnostic.AppendRow _) _ => "append_row"%string
  | Diagnostic.Ev Diagnostic.Now _ => "now"%string
  end.

(** The calls of the script in the order of the code, when the worksheets
    listed are [worksheets]. *)
Definition script (worksheets : list Diagnostic.sheet) : list string :=
  ["exists"%string; "from_service_account_file"%string; "authorize"%string; "open_by_url"%string;
   "title"%string; "worksheets"%string]
  ++ (if Diagnostic.sheet5_exists worksheets then []
      else ["add_worksheet"%string; "insert_row"%string])
  ++ ["get_all_values"%string; "now"%string; "append_row"%string; "get_all_values"%string].

(** The changes the script makes when it runs to its end. *)
Definition expected_changes (worksheets : list Diagnostic.sheet)
    (now : datetime) : list Diagnostic.change :=
  (if Diagnostic.sheet5_exists worksheets then []
   else [Diagnostic.Added; Diagnostic.Inserted Diagnostic.headers 1])
  ++ [Diagnostic.Appended (Diagnostic.test_row now)].

(** ** Further sample requests *)

Definition malformed_email : value :=
  VDict [(py "from", VStr (py "cs@email.fanaticscollect.com"));
         (py "body", VStr (py "Total Payout: $135.00"))].

Definition numeric_email : value :=
  VDict [(py "body", VDict [(py "textBody", VInt 135)])].


(** ** Running programs *)

Lemma run_bind {A B} (e : env) (m : prog A) (f : A -> prog B) (h : history) :
  run e (prog_bind m f) h =
  let (a, t1) := run e m h in
  let (b, t2) := run e (f a) (h ++ t1) in
  (b, t1 ++ t2).
Proof.
  revert h. induction m as [a | X o k IH]; intro h; simpl.
  - rewrite app_nil_r. destruct (run e (f a) h); reflexivity.
  - rewrite IH.
    destruct (run e (k (e X o h)) (h ++ [Ev o (e X o h)])) as [a t1].
    rewrite <- app_assoc. simpl.
    destruct (run e (f a) (h ++ Ev o (e X o h) :: t1)); reflexivity.
Qed.

Lemma pick_app {A B} (f : A -> option B) (l1 l2 : list A) :
  pick f (l1 ++ l2) = pick f l1 ++ pick f l2.
Proof.
  induction l1 as [| x l1 IH]; simpl; [reflexivity |].
  destruct (f x); simpl; rewrite IH; reflexivity.
Qed.

Lemma pick_none {A B} (f : A -> option B) (p : A -> bool) (l : list A) :
  forallb p l = true ->
  (forall x, p x = true -> f x = None) ->
  pick f l = [].
Proof.
  intros Hl Hp. induction l as [| x l IH]; simpl in *; [reflexivity |].
  apply andb_true_iff in Hl. destruct Hl as [Hx Hl].
  rewrite (Hp x Hx). auto.
Qed.

Lemma filter_none {A} (q p : A -> bool) (l : list A) :
  forallb p l = true ->
  (forall x, p x = true -> q x = false) ->
  filter q l = [].
Proof.
  intros Hl Hp. induction l as [| x l IH]; simpl in *; [reflexivity |].
  apply andb_true_iff in Hl. destruct Hl as [Hx Hl].
  rewrite (Hp x Hx). auto.
Qed.

Lemma filter_all {A} (q p : A -> bool) (l : list A) :
  forallb p l = true ->
  (forall x, p x = true -> q x = true) ->
  filter q l = l.
Proof.
  intros Hl Hp. induction l as [| x l IH]; simpl in *; [reflexivity |].
  apply andb_true_iff in Hl. destruct Hl as [Hx Hl].
  rewrite (Hp x Hx). f_equal. auto.
Qed.

Lemma existsb_none {A} (q p : A -> bool) (l : list A) :
  forallb p l = true ->
  (forall x, p x = true -> q x = false) ->
  existsb q l = false.
Proof.
  intros Hl Hp. induction l as [| x l IH]; simpl in *; [reflexivity |].
  apply andb_true_iff in Hl. destruct Hl as [Hx Hl].
  rewrite (Hp x Hx). auto.
Qed.

Lemma invokes_only b rs : forallb is_invoke (invokes b rs) = true.
Proof. induction rs; simpl; auto. Qed.

Lemma append_calls_only row rs : forallb is_append (append_calls row rs) = true.
Proof. induction rs; simpl; auto. Qed.

Lemma extractions_invokes b rs :
  extractions (invokes b rs) = map (fun r => (b, r)) rs.
Proof.
  unfold extractions, invokes.
  induction rs; simpl; [reflexivity |]. f_equal. assumption.
Qed.

Lemma appends_append_calls row rs :
  appends (append_calls row rs) = map (fun r => (row, r)) rs.
Proof.
  unfold appends, append_calls.
  induction rs; simpl; [reflexivity |]. f_equal. assumption.
Qed.

Ltac by_call :=
  let ev := fresh "ev" in
  let o := fresh "o" in
  let x := fresh "x" in
  intros ev; destruct ev as [? o x]; destruct o; simpl;
  solve [reflexivity | discriminate | intros; reflexivity].

Lemma invoke_not_ledger ev : is_invoke ev = true -> is_ledger_call ev = false.
Proof. revert ev. by_call. Qed.
Lemma invoke_not_append ev : is_invoke ev = true -> append ev = None.
Proof. revert ev. by_call. Qed.
Lemma invoke_not_clock ev : is_invoke ev = true -> clock ev = None.
Proof. revert ev. by_call. Qed.
Lemma invoke_not_start ev : is_invoke ev = true -> starts_connect ev = false.
Proof. revert ev. by_call. Qed.
Lemma invoke_not_complete ev : is_invoke ev = true -> completes_connect ev = false.
Proof. revert ev. by_call. Qed.

Lemma connect_not_invoke ev : is_connect_call ev = true -> extraction ev = None.
Proof. revert ev. by_call. Qed.
Lemma connect_not_append ev : is_connect_call ev = true -> append ev = None.
Proof. revert ev. by_call. Qed.
Lemma connect_not_clock ev : is_connect_call ev = true -> clock ev = None.
Proof. revert ev. by_call. Qed.
Lemma connect_is_ledger ev : is_connect_call ev = true -> is_ledger_call ev = true.
Proof. revert ev. by_call. Qed.

Lemma append_not_invoke ev : is_append ev = true -> extraction ev = None.
Proof. revert ev. by_call. Qed.
Lemma append_not_clock ev : is_append ev = true -> clock ev = None.
Proof. revert ev. by_call. Qed.
Lemma append_not_start ev : is_append ev = true -> starts_connect ev = false.
Proof. revert ev. by_call. Qed.
Lemma append_not_complete ev : is_append ev = true -> completes_connect ev = false.
Proof. revert ev. by_call. Qed.
Lemma append_is_ledger ev : is_append ev = true -> is_ledger_call ev = true.
Proof. revert ev. by_call. Qed.

Ltac reply e :=
  match goal with
  | |- context [match e ?X ?o ?h with _ => _ end] =>
      destruct (e X o h) eqn:?; simpl
  | |- context [if e ?X ?o ?h then _ else _] =>
      destruct (e X o h) eqn:?; simpl
  | |- context [negb (e ?X ?o ?h)] =>
      destruct (e X o h) eqn:?; simpl
  end.

Ltac checked :=
  match goal with
  | |- context [match validate ?r with _ => _ end] =>
      destruct (validate r) as [[] |] eqn:?; simpl
  end.

(** ** The stages of [analyze_with_llm] *)

Section Properties.
Variable P : python.

Lemma failed_invalid r msg : validate r = Raise msg -> failed (Ok r) = true.
Proof. intro H. unfold failed, attempt_ok. rewrite H. reflexivity. Qed.

(** The extraction loop: its calls are extraction attempts on the same text;
    it ends with the first response that passes, or returns after three
    failed attempts. *)
Lemma extract_loop_run e h body out tr :
  run e (extract_loop P body (range max_retries) VNone) h = (out, tr) ->
  exists rs, tr = invokes body rs /\
    ((exists fails r, out = Ok (Next r) /\ rs = fails ++ [Ok r]
        /\ validate r = Ok tt /\ forallb failed fails = true
        /\ List.length fails < 3)
     \/ (exists msg, out = Ok (Return (llm_error P msg))
        /\ forallb failed rs = true /\ List.length rs = 3)).
Proof.
  unfold range, max_retries. simpl.
  repeat (first [reply e | checked]);
    intro H; injection H as <- <-;
    match goal with
    | |- exists rs, ?t = _ /\ _ => exists (map snd (extractions t))
    end;
    (split; [reflexivity |]); simpl;
    repeat match goal with
      | H : validate _ = Raise _ |- _ => apply failed_invalid in H
      end.
  all: first
    [ right; eexists; split; [reflexivity |]; simpl;
      repeat match goal with H : failed _ = true |- _ => rewrite H end;
      split; reflexivity
    | left;
      match goal with
      | |- exists fails r, _ = _ /\ ?l = _ /\ _ =>
          exists (removelast l); eexists; split; [reflexivity |]; simpl
      end;
      split; [reflexivity |]; split; [assumption |];
      repeat match goal with H : failed _ = true |- _ => rewrite H end;
      split; [reflexivity | simpl; lia] ].
Qed.

Lemma initialize_run e h cw tr :
  run e initialize_google_sheets h = (cw, tr) ->
  forallb is_connect_call tr = true
  /\ connect_attempts tr = 1
  /\ (cw = (Some tt, Some tt) /\ connected tr = true
      \/ cw = (None, None) /\ connected tr = false).
Proof.
  unfold initialize_google_sheets. simpl.
  repeat reply e; intro H; injection H as <- <-;
    repeat match goal with u : unit |- _ => destruct u end;
    (split; [reflexivity |]); (split; [reflexivity |]);
    first [left; split; reflexivity | right; split; reflexivity].
Qed.

Lemma connect_attempts_app t1 t2 :
  connect_attempts (t1 ++ t2) = connect_attempts t1 + connect_attempts t2.
Proof. unfold connect_attempts. rewrite filter_app, length_app. reflexivity. Qed.

Lemma connected_app t1 t2 : connected (t1 ++ t2) = connected t1 || connected t2.
Proof. apply existsb_app. Qed.

(** The connection loop: at most three attempts, ended by the first one that
    goes through. *)
Lemma connect_loop_run e h r n p out tr :
  getitem P r (py "pokemon_name") = Ok n ->
  getitem P r (py "payout") = Ok p ->
  run e (connect_loop P r (range max_retries) (None, None)) h = (out, tr) ->
  forallb is_connect_call tr = true
  /\ (out = Ok (Next (Some tt, Some tt)) /\ connected tr = true
        /\ 1 <= connect_attempts tr <= 3
      \/ out = Ok (Return (sheets_error n p connection_failed_text))
        /\ connected tr = false /\ connect_attempts tr = 3).
Proof.
  intros Hn Hp. unfold range, max_retries. cbn [seq connect_loop].
  repeat
    (rewrite run_bind;
     match goal with
     | |- context [run e initialize_google_sheets ?h'] =>
         let E := fresh "E" in
         destruct (run e initialize_google_sheets h') as [? ?] eqn:E;
         apply initialize_run in E;
         destruct E as (? & ? & [[-> ?] | [-> ?]])
     end;
     cbn -[initialize_google_sheets]).
  all: try rewrite Hn; try rewrite Hp; cbn -[initialize_google_sheets].
  all: let R := fresh "R" in intro R; injection R as <- <-.
  all: rewrite ?forallb_app, ?connected_app, ?connect_attempts_app.
  all: simpl.
  all: repeat match goal with H : _ = _ |- _ => rewrite H end.
  all: simpl.
  all: split; [reflexivity |].
  all: change (connect_attempts []) with 0.
  all: first [ left; split; [reflexivity |]; split; [reflexivity | lia]
             | right; split; [reflexivity |]; split; reflexivity ].
Qed.

(** The append loop: the same row at each attempt, ended by the first append
    that goes through. *)
Lemma append_loop_run e h row name payout out tr :
  run e (append_loop P row name payout (range max_retries)) h = (out, tr) ->
  exists rs, tr = append_calls row rs /\
    ((exists fails, out = Ok (Next tt) /\ rs = map Raise fails ++ [Ok tt]
        /\ List.length fails < 3)
     \/ (exists m1 m2 m3, rs = [Raise m1; Raise m2; Raise m3]
        /\ out = Ok (Return (append_error (VStr name) (VStr payout)
                               (append_failed_text m3))))).
Proof.
  unfold range, max_retries. simpl.
  repeat reply e;
    intro H; injection H as <- <-;
    repeat match goal with u : unit |- _ => destruct u end;
    match goal with
    | |- exists rs, ?t = _ /\ _ => exists (map snd (appends t))
    end;
    (split; [reflexivity |]); simpl.
  - left. exists []. repeat split; simpl; lia.
  - left. eexists [_]. repeat split; simpl; lia.
  - left. eexists [_; _]. repeat split; simpl; lia.
  - right. do 3 eexists. split; reflexivity.
Qed.

Lemma validate_items r :
  validate r = Ok tt ->
  exists n p, getitem P r (py "pokemon_name") = Ok n
           /\ getitem P r (py "payout") = Ok p
           /\ truthy n = true /\ truthy p = true.
Proof.
  unfold validate, getitem, get.
  destruct r as [| | | | | | d]; simpl; try discriminate;
    try (destruct (negb _); discriminate).
  destruct (negb (is_nil d)); simpl; [| discriminate].
  destruct (lookup (py "pokemon_name") d) as [n |]; simpl; [| discriminate].
  destruct (truthy n) eqn:Hn; simpl; [| discriminate].
  destruct (lookup (py "payout") d) as [p |]; simpl; [| discriminate].
  destruct (truthy p) eqn:Hp; simpl; [| discriminate].
  intros _. exists n, p. auto.
Qed.

Lemma select_body_dict email_details email_body :
  select_body email_details = Ok email_body ->
  exists d, email_details = VDict d.
Proof.
  destruct email_details; simpl; try discriminate. eauto.
Qed.

Lemma select_body_by_rule email_details text markup :
  body_parts email_details = Some (text, markup) ->
  select_body email_details = Ok (body_by_rule text markup).
Proof.
  unfold body_parts, select_body, body_by_rule, get.
  destruct email_details as [| | | | | | d]; try discriminate.
  destruct (lookup (py "body") d) as [[| | | | | | b] |]; try discriminate;
    intro H; injection H as <- <-; simpl.
  - destruct (lookup (py "textBody") b) as [t |]; simpl.
    + destruct (truthy t); reflexivity.
    + reflexivity.
  - reflexivity.
Qed.

Ltac conjuncts := repeat match goal with |- _ /\ _ => split end.

Ltac monad :=
  cbn [lift bind prog_bind ret raise ask call total try_except run fst snd negb].

Lemma run_bind_M {A B} e (m : M A) (f : A -> M B) h :
  run e (bind m f) h =
  let (r, t1) := run e m h in
  let (b, t2) :=
    run e match r with Ok a => f a | Raise msg => Ret (Raise msg) end (h ++ t1) in
  (b, t1 ++ t2).
Proof. unfold bind. apply run_bind. Qed.

Lemma run_try_except {A} e (m : M A) (f : pystr -> M A) h :
  run e (try_except m f) h =
  let (r, t1) := run e m h in
  let (b, t2) :=
    run e match r with Ok a => Ret (Ok a) | Raise msg => f msg end (h ++ t1) in
  (b, t1 ++ t2).
Proof. unfold try_except. apply run_bind. Qed.

Ltac sequence :=
  progress rewrite ?run_bind, ?run_bind_M, ?run_try_except.

(** Every call of [analyze_with_llm] ends in one of the ways of [outcome]. *)
Lemma analyze_outcome e h email_details parsed_data result tr :
  run e (analyze_with_llm P email_details parsed_data) h = (result, tr) ->
  outcome P email_details result tr.
Proof.
  unfold analyze_with_llm, analyze_body.
  destruct (select_body email_details) as [body | msg] eqn:Hs; monad.
  2: { intro H; injection H as <- <-. now apply BadRequest. }
  destruct (truthy body) eqn:Ht; monad.
  2: { intro H; injection H as <- <-. now apply NoContent with body. }
  destruct (sliceable body) eqn:Hl.
  2: { destruct body; try discriminate; cbn; intro H; injection H as <- <-;
       now apply BadBody. }
  assert (Hu : usable_body email_details body) by (repeat split; assumption).
  destruct (slice P body 200) eqn:Hslice;
    [| destruct body; discriminate].
  monad. sequence.
  destruct (run e (extract_loop P body (range max_retries) VNone) h)
    as [x t1] eqn:E1.
  apply extract_loop_run in E1.
  destruct E1 as (rs & -> & [(fails & r & -> & -> & Hv & Hf & Hn)
                            | (msg & -> & Hf & Hn)]).
  2: { monad. rewrite !app_nil_r. intro H; injection H as <- <-.
       now apply ExtractionFailed. }
  pose proof Hv as Hi. apply validate_items in Hi.
  destruct Hi as (n & p & Hgn & Hgp & _ & _).
  assert (Hx : extraction_done P fails r n p) by (repeat split; assumption).
  monad. sequence.
  match goal with
  | |- context [run e (connect_loop P r ?a ?c) ?h'] =>
      destruct (run e (connect_loop P r a c) h') as [y t2] eqn:E2
  end.
  eapply connect_loop_run in E2; [| exact Hgn | exact Hgp].
  destruct E2 as (Hc & [(-> & Hk & Ha) | (-> & Hk & Ha)]).
  2: { monad. rewrite !app_nil_r. intro H; injection H as <- <-.
       now apply LedgerUnavailable. }
  assert (Hd : connection_done t2) by (repeat split; tauto).
  pose proof Hs as Hdict. apply select_body_dict in Hdict.
  destruct Hdict as (d & ->).
  monad. sequence. unfold append_block. monad. rewrite Hgn, Hgp. monad.
  unfold get. monad. sequence.
  match goal with
  | |- context [e datetime Now ?h'] => generalize (e datetime Now h')
  end.
  intro now.
  match goal with
  | |- context [run e (append_loop P ?row ?a ?b ?c) ?h'] =>
      destruct (run e (append_loop P row a b c) h') as [z t3] eqn:E3
  end.
  apply append_loop_run in E3.
  destruct E3 as (ars & -> & [(afails & -> & -> & Hal)
                             | (m1 & m2 & m3 & -> & ->)]);
    monad; rewrite !app_nil_r; intro H; injection H as <- <-.
  - now apply Sale.
  - now apply AppendFailed.
Qed.

Lemma pick_extraction_invokes b rs :
  pick extraction (invokes b rs) = map (fun r => (b, r)) rs.
Proof. apply extractions_invokes. Qed.

Lemma pick_append_calls row rs :
  pick append (append_calls row rs) = map (fun r => (row, r)) rs.
Proof. apply appends_append_calls. Qed.

Lemma attempts_failed (b : value) rs :
  forallb failed rs = true ->
  existsb (fun a => attempt_ok (snd a)) (map (fun r => (b, r)) rs) = false.
Proof.
  induction rs as [| r rs IH]; simpl; [reflexivity |].
  intro H. apply andb_true_iff in H. destruct H as [Hr Hrs].
  unfold failed in Hr. apply negb_true_iff in Hr. rewrite Hr. auto.
Qed.

Lemma attempt_passed r : validate r = Ok tt -> attempt_ok (Ok r) = true.
Proof. intro H. unfold attempt_ok. rewrite H. reflexivity. Qed.

(** Reading the calls of a run stage by stage. *)
Ltac observe :=
  unfold extracted, appended, rows_written, extractions, appends,
    clock_readings, connect_attempts, connected, ledger_calls in *;
  repeat
    (rewrite ?pick_app, ?filter_app, ?existsb_app, ?length_app, ?map_app,
       ?pick_extraction_invokes, ?pick_append_calls in *;
     rewrite ?(pick_none append _ _ (invokes_only _ _) invoke_not_append),
       ?(pick_none clock _ _ (invokes_only _ _) invoke_not_clock),
       ?(filter_none starts_connect _ _ (invokes_only _ _) invoke_not_start),
       ?(existsb_none completes_connect _ _ (invokes_only _ _)
           invoke_not_complete),
       ?(filter_none is_ledger_call _ _ (invokes_only _ _) invoke_not_ledger),
       ?(pick_none extraction _ _ (append_calls_only _ _) append_not_invoke),
       ?(pick_none clock _ _ (append_calls_only _ _) append_not_clock),
       ?(filter_none starts_connect _ _ (append_calls_only _ _)
           append_not_start),
       ?(existsb_none completes_connect _ _ (append_calls_only _ _)
           append_not_complete),
       ?(filter_all is_ledger_call _ _ (append_calls_only _ _)
           append_is_ledger) in *;
     repeat match goal with
       | Hc : forallb is_connect_call ?tc = true |- _ =>
           progress
             rewrite ?(pick_none extraction _ tc Hc connect_not_invoke),
               ?(pick_none append _ tc Hc connect_not_append),
               ?(pick_none clock _ tc Hc connect_not_clock),
               ?(filter_all is_ledger_call _ tc Hc connect_is_ledger) in *
       end;
     cbn [pick filter existsb app map List.length extraction append clock
            starts_connect completes_connect is_ledger_call is_connect_call
            orb andb fst snd] in *).

(** Case analysis on the way a run ended. *)
Ltac outcomes H :=
  apply analyze_outcome in H;
  destruct H as [msg Hs' | b Hs' Ht' | b Hs' Ht' Hl'
                | b rs msg Hu Hf Hn
                | b fails r n p tc Hu Hd Hc Hk Ha
                | b fails r n p tc now m1 m2 m3 Hu Hd Hc
                | b fails r n p tc now afails Hu Hd Hc Hal];
  repeat match goal with
    | H : usable_body _ _ |- _ => destruct H as (? & ? & ?)
    | H : extraction_done _ _ _ _ _ |- _ =>
        let Hv := fresh "Hv" in
        let Hp := fresh "Hp" in
        destruct H as (? & ? & Hv & ? & ?);
        pose proof Hv as Hp; apply attempt_passed in Hp
    | H : connection_done _ |- _ => destruct H as (? & ? & ?)
    end.




(** C10. Line 112 selects the text by the rule [body_by_rule]: the plain
    text whenever it is not blank, the markup only when the plain text is
    missing or empty.  Every extraction attempt of the run is given that
    text, so with a plain text present the markup reaches no attempt. *)
Theorem plain_text_preferred e h email_details parsed_data text markup result tr :
  body_parts email_details = Some (text, markup) ->
  run e (analyze_with_llm P email_details parsed_data) h = (result, tr) ->
  select_body email_details = Ok (body_by_rule text markup)
  /\ (forall a, In a (extractions tr) -> fst a = body_by_rule text markup)
  /\ (blank text = false -> Some (body_by_rule text markup) = text)
  /\ (blank text = true -> body_by_rule text markup = part_or_empty markup).
Proof.
  intros Hb Hrun.
  pose proof (select_body_by_rule _ Hb) as Hs.
  split; [assumption |]. split.
  - outcomes Hrun; observe; intros a Hin;
      repeat (apply in_app_or in Hin; destruct Hin as [Hin | Hin]);
      try contradiction;
      first [ apply in_map_iff in Hin; destruct Hin as (x & <- & _)
            | destruct Hin as [<- | []] ];
      simpl; congruence.
  - unfold body_by_rule. split; intro Hblank; rewrite Hblank; [| reflexivity].
    destruct text; [reflexivity | discriminate].
Qed.

Lemma passing_none (b : value) rs :
  forallb failed rs = true ->
  filter (fun a => attempt_ok (snd a)) (map (fun r => (b, r)) rs) = [].
Proof.
  induction rs as [| r rs IH]; simpl; [reflexivity |].
  intro H. apply andb_true_iff in H. destruct H as [Hr Hrs].
  unfold failed in Hr. apply negb_true_iff in Hr. rewrite Hr. auto.
Qed.

Ltac settle :=
  repeat match goal with
    | H : existsb _ (map _ ?rs) = true, F : forallb failed ?rs = true |- _ =>
        rewrite (attempts_failed _ _ F) in H
    | H : context [existsb _ (map _ ?rs)], F : forallb failed ?rs = true |- _ =>
        rewrite (attempts_failed _ _ F) in H
    | H : context [append_ok (?row, Ok ?u)] |- _ =>
        change (append_ok (row, Ok u)) with true in H
    | H : ?x = true, H' : context [?x] |- _ => rewrite H in H'
    | H : ?x = false, H' : context [?x] |- _ => rewrite H in H'
    end;
  cbn [orb andb] in *; rewrite ?orb_true_r in *;
  try discriminate; try congruence.

(** C5. When an extraction attempt passed and no connection attempt of the
    run went through, the run made three connection attempts and no append,
    its result is a [sheets_error] with confidence 0.8 that carries the two
    fields of the one response that passed, as the extractor returned them,
    and every extraction attempt comes before every ledger call: extraction
    is not attempted again after a connection failure. *)
Theorem ledger_unavailable e h email_details parsed_data result tr :
  run e (analyze_with_llm P email_details parsed_data) h = (result, tr) ->
  extracted tr = true -> connected tr = false ->
  exists email_body r n p,
    filter (fun a => attempt_ok (snd a)) (extractions tr) = [(email_body, Ok r)]
    /\ getitem P r (py "pokemon_name") = Ok n
    /\ getitem P r (py "payout") = Ok p
    /\ field "email_type" result = Some (VStr (py "sheets_error"))
    /\ field "confidence" result = Some (VFloat 0.8)
    /\ field "extracted_data" result
        = Some (VDict [(py "pokemon_name", n); (py "payout", p)])
    /\ connect_attempts tr = 3
    /\ appends tr = []
    /\ exists tx tc, tr = tx ++ tc /\ ledger_calls tx = []
                  /\ extractions tc = []
                  /\ List.length (extractions tx) <= 3.
Proof.
  intros Hrun Hx Hnc.
  outcomes Hrun.
  1-4: observe; settle.
  2-3: observe; settle.
  exists b, r, n, p.
  conjuncts; try reflexivity; try assumption.
  - observe. rewrite passing_none by assumption. rewrite Hp. reflexivity.
  - observe. rewrite Ha. reflexivity.
  - observe. reflexivity.
  - exists (invokes b (fails ++ [Ok r])), tc.
    conjuncts; try reflexivity; observe; try reflexivity.
    rewrite length_map. simpl. lia.
Qed.







Lemma pystr_eqb_eq a b : pystr_eqb a b = true <-> a = b.
Proof.
  revert b. induction a as [| x a IH]; destruct b as [| y b]; simpl;
    try (split; [discriminate | discriminate]); [tauto |].
  rewrite andb_true_iff, N.eqb_eq, IH. split.
  - intros [-> ->]. reflexivity.
  - intro H. injection H as -> ->. auto.
Qed.

Lemma clean_name_rule s :
  clean_name s <> []
  /\ (s = [] \/ s = py "N/A" -> clean_name s = py "Unknown Pokemon")
  /\ (s <> [] -> s <> py "N/A" -> clean_name s = s).
Proof.
  unfold clean_name.
  destruct (is_nil s) eqn:En; cbn [orb].
  - destruct s; [| discriminate]. conjuncts.
    + discriminate.
    + reflexivity.
    + intro H. now contradiction H.
  - destruct (pystr_eqb s (py "N/A")) eqn:E; conjuncts.
    + discriminate.
    + reflexivity.
    + intros _ H. apply pystr_eqb_eq in E. contradiction.
    + destruct s; discriminate.
    + intros [-> | H]; [discriminate |].
      apply pystr_eqb_eq in H. congruence.
    + reflexivity.
Qed.

Lemma clean_payout_rule s :
  clean_payout s <> []
  /\ (s = [] \/ s = py "N/A" -> clean_payout s = py "0")
  /\ (s <> [] -> s <> py "N/A" -> clean_payout s = s).
Proof.
  unfold clean_payout.
  destruct (is_nil s) eqn:En; cbn [orb].
  - destruct s; [| discriminate]. conjuncts.
    + discriminate.
    + reflexivity.
    + intro H. now contradiction H.
  - destruct (pystr_eqb s (py "N/A")) eqn:E; conjuncts.
    + discriminate.
    + reflexivity.
    + intros _ H. apply pystr_eqb_eq in E. contradiction.
    + destruct s; discriminate.
    + intros [-> | H]; [discriminate |].
      apply pystr_eqb_eq in H. congruence.
    + reflexivity.
Qed.


(** C3, as amended. Every row handed to [append_row] comes from the one
    response that passed the check of line 133, whose two fields are present
    and truthy; its name and payout are the fields as strings, stripped, and
    then normalized: a name that is empty or "N/A" becomes "Unknown
    Pokemon", a payout that is empty or "N/A" becomes "0", anything else is
    kept.  Both fields of the row are non-empty. *)
Theorem persisted_row_normalized e h email_details parsed_data result tr row reply :
  run e (analyze_with_llm P email_details parsed_data) h = (result, tr) ->
  In (row, reply) (appends tr) ->
  (exists email_body r n p now,
     filter (fun a => attempt_ok (snd a)) (extractions tr) = [(email_body, Ok r)]
     /\ getitem P r (py "pokemon_name") = Ok n /\ truthy n = true
     /\ getitem P r (py "payout") = Ok p /\ truthy p = true
     /\ row = [strftime now; clean_name (strip (str P n));
               clean_payout (strip (str P p))]
     /\ clean_name (strip (str P n)) <> []
     /\ clean_payout (strip (str P p)) <> [])
  /\ (forall s, (s = [] \/ s = py "N/A" ->
                 clean_name s = py "Unknown Pokemon" /\ clean_payout s = py "0")
             /\ (s <> [] -> s <> py "N/A" ->
                 clean_name s = s /\ clean_payout s = s)).
Proof.
  intros Hrun Hin. split.
  2: { intro s. destruct (clean_name_rule s) as (_ & A & B).
       destruct (clean_payout_rule s) as (_ & C & D). split; auto. }
  outcomes Hrun; observe; try contradiction.
  all: pose proof Hv as Hi; apply validate_items in Hi;
    destruct Hi as (n' & p' & Hn' & Hp' & Tn & Tp);
    assert (n' = n) by congruence; assert (p' = p) by congruence; subst n' p'.
  all: exists b, r, n, p, now.
  all: conjuncts; try assumption;
    try apply clean_name_rule; try apply clean_payout_rule.
  all: try (rewrite passing_none by assumption; rewrite Hp; reflexivity).
  - destruct Hin as [E | [E | [E | []]]]; injection E as <- _; reflexivity.
  - apply in_app_or in Hin. destruct Hin as [Hin | [E | []]].
    + apply in_map_iff in Hin. destruct Hin as (x & E & _).
      injection E as <- _. reflexivity.
    + injection E as <- _. reflexivity.
Qed.

(** C9. [initialize_google_sheets] appends nothing: after one call, and
    after a second one, no append was attempted and the worksheet holds the
    rows it held before. *)
Theorem connect_writes_nothing e h cw tr cw' tr' rows :
  run e initialize_google_sheets h = (cw, tr) ->
  run e initialize_google_sheets (h ++ tr) = (cw', tr') ->
  appends tr = []
  /\ sheet_after rows tr = rows
  /\ appends (tr ++ tr') = []
  /\ sheet_after rows (tr ++ tr') = rows.
Proof.
  intros H1 H2.
  apply initialize_run in H1. destruct H1 as (Hc & _ & _).
  apply initialize_run in H2. destruct H2 as (Hc' & _ & _).
  unfold sheet_after. observe. rewrite !app_nil_r. auto.
Qed.

Lemma health_run e h x tr :
  run e health h = (x, tr) ->
  exists tc now2,
    forallb is_connect_call tc = true /\ connect_attempts tc = 1
    /\ fst x = 200
    /\ field "groq_llm" (snd x) = Some (VStr (py "available"))
    /\ (connected tc = false /\ tr = tc ++ [Ev Now now2]
          /\ field "google_sheets" (snd x) = Some (VStr (py "disconnected"))
        \/ exists now1 reply,
          connected tc = true
          /\ tr = tc ++ [Ev Now now1; Ev (AppendRow (test_row now1)) reply;
                         Ev Now now2]
          /\ field "google_sheets" (snd x)
              = Some (VStr (if append_ok (test_row now1, reply)
                            then py "connected" else py "disconnected"))).
Proof.
  unfold health, test_google_sheets_connection, total.
  repeat sequence.
  destruct (run e initialize_google_sheets h) as [cw tc] eqn:E.
  apply initialize_run in E.
  destruct E as (Hc & Ha & [(-> & Hk) | (-> & Hk)]); monad.
  - reply e; rewrite ?app_nil_r; intro H; injection H as <- <-;
      rewrite <- ?app_assoc; cbn [app];
      eexists tc, _; conjuncts; try assumption; try reflexivity;
      right; do 2 eexists; conjuncts; try assumption; reflexivity.
  - rewrite ?app_nil_r; intro H; injection H as <- <-.
    eexists tc, _; conjuncts; try assumption; try reflexivity.
    left. conjuncts; try assumption; reflexivity.
Qed.

(** C8. A call of [health] answers 200, makes one connection attempt and no
    extraction attempt, and always reports the extractor as "available".
    It appends one test row when, and only when, the connection went
    through, and reports "connected" exactly when both the connection and
    that append went through, "disconnected" otherwise.  Two calls in a row
    that both report "connected" leave two test rows. *)
Theorem health_round_trip e h status body tr :
  run e health h = (status, body, tr) ->
  status = 200
  /\ field "groq_llm" body = Some (VStr (py "available"))
  /\ extractions tr = []
  /\ connect_attempts tr = 1
  /\ field "google_sheets" body
      = Some (VStr (if connected tr && appended tr
                    then py "connected" else py "disconnected"))
  /\ (connected tr = false -> appends tr = [])
  /\ (connected tr = true ->
      exists now reply, appends tr = [(test_row now, reply)])
  /\ (forall status' body' tr',
        run e health (h ++ tr) = (status', body', tr') ->
        connected tr && appended tr = true ->
        connected tr' && appended tr' = true ->
        exists now now',
          rows_written (tr ++ tr') = [test_row now; test_row now']).
Proof.
  intro Hrun. apply health_run in Hrun.
  destruct Hrun as (tc & now2 & Hc & Ha & Hst & Hllm
                    & [(Hk & -> & Hg) | (now1 & reply & Hk & -> & Hg)]);
    simpl in Hst, Hllm, Hg.
  - conjuncts; try assumption.
    + observe. reflexivity.
    + observe. rewrite Ha. reflexivity.
    + observe. rewrite Hk. assumption.
    + observe. reflexivity.
    + observe. rewrite Hk. discriminate.
    + observe. rewrite Hk. discriminate.
  - conjuncts; try assumption.
    + observe. reflexivity.
    + observe. rewrite Ha. reflexivity.
    + observe. rewrite Hk. cbn [orb andb]. rewrite orb_false_r. assumption.
    + observe. rewrite Hk. discriminate.
    + observe. eauto.
    + intros status' body' tr' Hrun' Hok Hok'.
      apply health_run in Hrun'.
      destruct Hrun' as (tc' & now2' & Hc' & Ha' & _ & _
                         & [(Hk' & -> & _) | (now1' & reply' & Hk' & -> & _)]).
      * observe. rewrite Hk' in Hok'. discriminate.
      * observe. exists now1, now1'.
        destruct reply as [[] |]; [| rewrite andb_false_r in Hok; discriminate].
        destruct reply' as [[] |]; [| rewrite andb_false_r in Hok'; discriminate].
        reflexivity.
Qed.


(** ** Further properties of [analyze_with_llm] *)

(** X1. The check of line 133 passes exactly for a [dict] whose
    [pokemon_name] and [payout] are both present and truthy. *)
Theorem validate_passes_iff r :
  attempt_ok (Ok r) = true
  <-> exists d n p,
        r = VDict d
        /\ lookup (py "pokemon_name") d = Some n /\ truthy n = true
        /\ lookup (py "payout") d = Some p /\ truthy p = true.
Proof.
  split.
  - intro H. unfold attempt_ok in H.
    destruct (validate r) as [[] |] eqn:Hv; [| discriminate].
    apply validate_items in Hv. destruct Hv as (n & p & Hn & Hp & Tn & Tp).
    unfold getitem in *. destruct r; try discriminate.
    destruct (lookup (py "pokemon_name") d) eqn:E1; [| discriminate].
    destruct (lookup (py "payout") d) eqn:E2; [| discriminate].
    injection Hn as ->. injection Hp as ->.
    exists d, n, p. auto.
  - intros (d & n & p & -> & Hn & Tn & Hp & Tp).
    unfold attempt_ok, validate, get. cbn [truthy].
    destruct d as [| kv d]; [discriminate |].
    cbn [is_nil negb res_bind]. rewrite Hn, Tn. cbn [negb].
    rewrite Hp, Tp. reflexivity.
Qed.






(** X4. The result of [analyze_with_llm] is always a dictionary with an
    [email_type] and the confidence fixed for that type; it has an [error]
    text unless it is a [pokemon_sale], and an [extracted_data] exactly for
    [sheets_error], [append_error] and [pokemon_sale]. *)
Theorem result_kinds e h email_details parsed_data :
  let (result, tr) := run e (analyze_with_llm P email_details parsed_data) h in
  exists kind c,
    field "email_type" result = Some (VStr kind)
    /\ field "confidence" result = Some (VFloat c)
    /\ In (kind, c) confidence_table
    /\ is_some (field "error" result)
       = negb (pystr_eqb kind (py "pokemon_sale"))
    /\ is_some (field "extracted_data" result) = carries_record kind.
Proof.
  destruct (run e (analyze_with_llm P email_details parsed_data) h)
    as [result tr] eqn:Hrun.
  outcomes Hrun; do 2 eexists;
    (split; [reflexivity |]); (split; [reflexivity |]);
    (split; [cbn; tauto |]); split; reflexivity.
Qed.


(** X6. The timestamp is taken once, before the first append, and every
    append attempt of a run is given the same row. *)
Theorem same_row_every_attempt e h email_details parsed_data :
  let (result, tr) := run e (analyze_with_llm P email_details parsed_data) h in
  appends tr = []
  \/ exists now pokemon_name payout_amount,
       clock_readings tr = [now]
       /\ forall a, In a (appends tr) ->
                    fst a = [strftime now; pokemon_name; payout_amount].
Proof.
  destruct (run e (analyze_with_llm P email_details parsed_data) h)
    as [result tr] eqn:Hrun.
  outcomes Hrun; observe; try (left; reflexivity).
  - right. do 3 eexists. split; [reflexivity |].
    intros a [<- | [<- | [<- | []]]]; reflexivity.
  - right. do 3 eexists. split; [reflexivity |].
    intros a Hin. apply in_app_or in Hin. destruct Hin as [Hin | [<- | []]].
    + apply in_map_iff in Hin. destruct Hin as (x & <- & _). reflexivity.
    + reflexivity.
Qed.

Lemma lstrip_split s :
  exists p, s = p ++ lstrip s /\ forallb isspace p = true.
Proof.
  induction s as [| c s IH]; simpl.
  - exists []. auto.
  - destruct (isspace c) eqn:E.
    + destruct IH as (p & Hp & Hsp). exists (c :: p). simpl.
      rewrite E, Hsp. split; [f_equal; assumption | reflexivity].
    + exists []. auto.
Qed.

Lemma lstrip_head s : 
  match lstrip s with
  | [] => True
  | c :: _ => isspace c = false
  end.
Proof.
  induction s as [| c s IH]; simpl; [exact I |].
  destruct (isspace c) eqn:E; [assumption | assumption].
Qed.

Lemma strip_trimmed s : trimmed (strip s) = true.
Proof.
  unfold strip.
  pose proof (lstrip_head s) as Hhead.
  destruct (lstrip_split (rev (lstrip s))) as (p & Hp & Hsp).
  pose proof (lstrip_head (rev (lstrip s))) as Hlast.
  set (t := lstrip (rev (lstrip s))) in *.
  assert (Hx : lstrip s = rev t ++ rev p).
  { rewrite <- rev_app_distr, <- Hp, rev_involutive. reflexivity. }
  destruct t as [| c t']; [reflexivity |].
  assert (Hne : rev (c :: t') <> []).
  { intro H. apply (f_equal (@rev N)) in H. rewrite rev_involutive in H.
    discriminate. }
  destruct (rev (c :: t')) as [| c0 u] eqn:Hr; [congruence |].
  unfold trimmed.
  assert (Hl : last (c0 :: u) c0 = c).
  { rewrite <- Hr. simpl. apply last_last. }
  rewrite Hl, Hlast. rewrite Hx in Hhead. simpl in Hhead. rewrite Hhead.
  reflexivity.
Qed.

Lemma clean_name_trimmed s :
  trimmed s = true ->
  trimmed (clean_name s) = true
  /\ is_nil (clean_name s) = false
  /\ pystr_eqb (clean_name s) (py "N/A") = false.
Proof.
  intro H. unfold clean_name.
  destruct (is_nil s) eqn:En; cbn [orb]; [repeat split; reflexivity |].
  destruct (pystr_eqb s (py "N/A")) eqn:E; [repeat split; reflexivity |].
  auto.
Qed.

Lemma clean_payout_trimmed s :
  trimmed s = true ->
  trimmed (clean_payout s) = true
  /\ is_nil (clean_payout s) = false
  /\ pystr_eqb (clean_payout s) (py "N/A") = false.
Proof.
  intro H. unfold clean_payout.
  destruct (is_nil s) eqn:En; cbn [orb]; [repeat split; reflexivity |].
  destruct (pystr_eqb s (py "N/A")) eqn:E; [repeat split; reflexivity |].
  auto.
Qed.

Lemma normalized_row_clean ts n p :
  clean_row [ts; clean_name (strip (str P n)); clean_payout (strip (str P p))]
  = true.
Proof.
  pose proof (strip_trimmed (str P n)) as A. apply clean_name_trimmed in A.
  pose proof (strip_trimmed (str P p)) as B. apply clean_payout_trimmed in B.
  destruct A as (A1 & A2 & A3). destruct B as (B1 & B2 & B3).
  unfold clean_row. rewrite A1, A2, A3, B1, B2, B3. reflexivity.
Qed.

(** X7. Every row handed to [append_row] has three cells, and its name and
    its payout are filled in, carry no whitespace at either end and are
    never "N/A". *)
Theorem appended_rows_clean e h email_details parsed_data :
  let (result, tr) := run e (analyze_with_llm P email_details parsed_data) h in
  forallb (fun a => clean_row (fst a)) (appends tr) = true.
Proof.
  destruct (run e (analyze_with_llm P email_details parsed_data) h)
    as [result tr] eqn:Hrun.
  outcomes Hrun; observe; try reflexivity.
  - cbn [forallb fst]. subst row_data pokemon_name payout_amount.
    rewrite normalized_row_clean. reflexivity.
  - rewrite forallb_app. cbn [forallb fst].
    subst row_data pokemon_name payout_amount.
    rewrite normalized_row_clean.
    rewrite andb_true_r. apply forallb_forall.
    intros a Hin. apply in_map_iff in Hin. destruct Hin as (x & <- & _).
    apply normalized_row_clean.
Qed.

Lemma body_parts_none email_details :
  body_parts email_details = None ->
  exists v,
    is_dict v = false
    /\ select_body email_details
       = Raise (py "'" ++ type_name v ++ py "' object has no attribute 'get'").
Proof.
  unfold body_parts, select_body, get.
  destruct email_details as [| | | | | | d];
    try (intros _; eexists; split; [| reflexivity]; reflexivity).
  destruct (lookup (py "body") d) as [[| | | | | | b] |]; try discriminate;
    intros _; cbn [res_bind]; eexists; (split; [| reflexivity]); reflexivity.
Qed.

(** X8. When the request's [email_details] or its [body] is not an object,
    [analyze_with_llm] makes no call and returns the catch-all [error]
    result with confidence 0.0, whose text names the [AttributeError]. *)
Theorem malformed_body_is_error e h email_details parsed_data result tr :
  body_parts email_details = None ->
  run e (analyze_with_llm P email_details parsed_data) h = (result, tr) ->
  field "email_type" result = Some (VStr (py "error"))
  /\ field "confidence" result = Some (VFloat 0.0)
  /\ tr = []
  /\ exists v,
      is_dict v = false
      /\ field "error" result
         = Some (VStr (py "LLM Analysis Error: '" ++ type_name v
                       ++ py "' object has no attribute 'get'")).
Proof.
  intros Hb Hrun. apply body_parts_none in Hb.
  destruct Hb as (v & Hv & Hs).
  outcomes Hrun; try congruence.
  conjuncts; try reflexivity.
  exists v. split; [assumption |].
  assert (msg = py "'" ++ type_name v ++ py "' object has no attribute 'get'")
    by congruence.
  subst msg. reflexivity.
Qed.

(** X9. When the selected body is truthy but is neither a string nor a list
    (a number, [true], an object), [analyze_with_llm] makes no call and
    returns the catch-all [error] result with confidence 0.0. *)
Theorem non_text_body_is_error e h email_details parsed_data text markup result tr :
  body_parts email_details = Some (text, markup) ->
  truthy (body_by_rule text markup) = true ->
  sliceable (body_by_rule text markup) = false ->
  run e (analyze_with_llm P email_details parsed_data) h = (result, tr) ->
  field "email_type" result = Some (VStr (py "error"))
  /\ field "confidence" result = Some (VFloat 0.0)
  /\ field "error" result
     = Some (VStr (py "LLM Analysis Error: "
                   ++ slice_error P (body_by_rule text markup)))
  /\ tr = [].
Proof.
  intros Hb Ht Hl Hrun. apply select_body_by_rule in Hb.
  outcomes Hrun; try congruence.
  assert (b = body_by_rule text markup) by congruence. subst b.
  conjuncts; reflexivity.
Qed.





(** X11. After three failed connection attempts the error text of the
    result is the same whatever made the attempts fail: the cause (a
    missing credential file, a refused authorization, an unknown worksheet)
    is not reported. *)
Theorem connection_error_hides_cause e h email_details parsed_data result tr :
  run e (analyze_with_llm P email_details parsed_data) h = (result, tr) ->
  extracted tr = true -> connected tr = false ->
  field "error" result
  = Some (VStr (py "Google Sheets connection failed after 3 attempts: Failed to initialize Google Sheets")).
Proof.
  intros Hrun Hx Hnc.
  outcomes Hrun; observe; settle.
  reflexivity.
Qed.

(** X12. After three failed appends the error text of the result is "Failed
    to append to Google Sheets after 3 attempts: " followed by the message
    of the third failure alone. *)
Theorem append_error_reports_last e h email_details parsed_data result tr :
  run e (analyze_with_llm P email_details parsed_data) h = (result, tr) ->
  connected tr = true -> appended tr = false ->
  exists row m1 m2 m3,
    appends tr = [(row, Raise m1); (row, Raise m2); (row, Raise m3)]
    /\ field "error" result
       = Some (VStr (py "Failed to append to Google Sheets after 3 attempts: "
                     ++ m3)).
Proof.
  intros Hrun Hk' Hna.
  outcomes Hrun; observe; settle.
  do 4 eexists. split; reflexivity.
Qed.

(** X13. One call of [initialize_google_sheets] makes the six steps of
    connecting in the order of the code and stops at the first that does
    not go through; it returns the handles exactly when all six went
    through, and [(None, None)] otherwise. *)
Theorem connect_stops_at_first_failure e h :
  let (cw, tr) := run e initialize_google_sheets h in
  map step_of tr = firstn (List.length tr) connect_steps
  /\ none_after call_failed tr = true
  /\ cw = (if existsb call_failed tr then (None, None) else (Some tt, Some tt))
  /\ (if existsb call_failed tr then 1 <= List.length tr <= 6
      else List.length tr = 6).
Proof.
  unfold initialize_google_sheets. simpl.
  repeat reply e;
    repeat match goal with u : unit |- _ => destruct u end;
    cbn; conjuncts; try reflexivity; lia.
Qed.


Lemma test_data_items now :
  get (test_data now) (py "email_details") (VDict []) = Ok test_email_details
  /\ get (test_data now) (py "parsed_data") (VDict []) = Ok test_parsed_data
  /\ get (test_data now) (py "timestamp") (VStr []) = Ok (VStr (isoformat now)).
Proof. repeat split. Qed.

(** X15. [test] reads the clock and then runs [analyze_with_llm] on its
    fixed payload: it always answers 200 with [test_success], every
    extraction attempt is given the fixed plain-text body, and [process],
    given [test_data] as a request at that point, makes the same calls and
    returns the same [llm_analysis]. *)
Theorem test_runs_the_pipeline e h :
  let (response, tr) := run e (test P) h in
  exists now analysis rest body,
    tr = Ev Now now :: rest
    /\ response
       = (200, VDict [(py "status", VStr (py "test_success"));
                      (py "test_data", test_data now);
                      (py "llm_analysis", analysis)])
    /\ run e (process P (Ok (test_data now))) (h ++ [Ev Now now])
       = (200, body, rest)
    /\ field "llm_analysis" body = Some analysis
    /\ (forall a, In a (extractions rest) ->
                  Some (fst a) = field "textBody"
                                   (part_or_empty (field "body" test_email_details))).
Proof.
  unfold test. cbn [prog_bind run]. sequence.
  set (t0 := e datetime Now h).
  destruct (run e (analyze_with_llm P test_email_details test_parsed_data)
              (h ++ [Ev Now t0])) as [analysis rest] eqn:Hrun.
  cbn [run]. rewrite app_nil_r.
  exists t0, analysis, rest.
  eexists. split; [reflexivity |]. split; [reflexivity |].
  split; [| split].
  - unfold process. monad.
    destruct (test_data_items t0) as (E1 & E2 & E3).
    rewrite E1. monad. rewrite E2. monad. rewrite E3. monad.
    change (get test_email_details (py "from") (VStr (py "N/A")))
      with (Ok (A:=value) (VStr (py "cs@email.fanaticscollect.com"))).
    monad.
    change (get test_email_details (py "subject") (VStr (py "N/A")))
      with (Ok (A:=value)
              (VStr (py "Your Buy Now Sale is Complete! " ++ [127881%N]))).
    monad.
    change (get test_parsed_data (py "emailType") (VStr (py "unknown")))
      with (Ok (A:=value) (VStr (py "fanatics_sale"))).
    monad. unfold total. repeat sequence. rewrite Hrun. monad.
    rewrite !app_nil_r. reflexivity.
  - reflexivity.
  - intros a Hin.
    assert (Hs : select_body test_email_details
                 = Ok (VStr (py "Your Pokemon Charizard VMAX sale is complete. Sale Price: $150.00, Seller Fees: $15.00, Total Payout: $135.00")))
      by reflexivity.
    outcomes Hrun; observe; try contradiction;
      repeat (apply in_app_or in Hin; destruct Hin as [Hin | Hin]);
      try contradiction;
      first [ apply in_map_iff in Hin; destruct Hin as (x & <- & _)
            | destruct Hin as [<- | []] ];
      cbn [fst];
      match goal with
      | H : select_body test_email_details = Ok ?b |- _ =>
          rewrite Hs in H; injection H as <-
      end;
      reflexivity.
Qed.

(** ** test_google_sheets.py *)

Ltac listed :=
  match goal with
  | |- context [Diagnostic.sheet5_exists ?l] =>
      destruct (Diagnostic.sheet5_exists l) eqn:?; simpl
  end.

(** X16. The diagnostic makes its calls in the order of the code, stops at
    the first call that does not go through, and returns [True] exactly
    when every call it made went through; what the two reads return has no
    part in the result. *)
Theorem diagnostic_true_iff_no_failure (e : Diagnostic.env) h :
  let (ok, tr) :=
    Diagnostic.run e Diagnostic.test_google_sheets_connection h in
  ok = negb (existsb Diagnostic.call_failed tr)
  /\ none_after Diagnostic.call_failed tr = true
  /\ 1 <= List.length tr
  /\ map call_name tr
     = firstn (List.length tr) (script (hd [] (pick Diagnostic.listing tr))).
Proof.
  unfold Diagnostic.test_google_sheets_connection. simpl.
  repeat (first [reply e | listed]);
    cbn; unfold script; cbn;
    repeat match goal with
      | H : Diagnostic.sheet5_exists _ = _ |- _ => rewrite H
      end;
    cbn; conjuncts; try reflexivity; lia.
Qed.

(** X17. The diagnostic changes nothing before it has listed the
    worksheets.  After that its changes are, in this order, the creation of
    Sheet5 followed by its header row inserted as row 1, made only when no
    listed worksheet is titled "Sheet5", and one append of the test row; a
    run that returns [True] made all of them. *)
Theorem diagnostic_changes (e : Diagnostic.env) h :
  let (ok, tr) :=
    Diagnostic.run e Diagnostic.test_google_sheets_connection h in
  match pick Diagnostic.listing tr with
  | [] => ok = false /\ Diagnostic.changes tr = []
  | worksheets :: _ =>
      exists now,
        Diagnostic.changes tr
        = firstn (List.length (Diagnostic.changes tr))
            (expected_changes worksheets now)
        /\ (ok = false \/ Diagnostic.changes tr = expected_changes worksheets now)
  end.
Proof.
  unfold Diagnostic.test_google_sheets_connection. simpl.
  repeat (first [reply e | listed]);
    cbn; unfold expected_changes; cbn;
    repeat match goal with
      | H : Diagnostic.sheet5_exists _ = _ |- _ => rewrite H
      end;
    cbn;
    try (split; reflexivity);
    try (exists morning; split; [reflexivity | left; reflexivity]);
    eexists; split; try reflexivity; auto.
Qed.

End Properties.

(** ** The theorems at sample runs *)

Ltac evaluated := vm_compute; repeat split; reflexivity.



Lemma plain_text_preferred_witness :
  body_parts sale_email = Some (Some sale_text, Some sale_markup)
  /\ select_body sale_email = Ok (body_by_rule (Some sale_text) (Some sale_markup))
  /\ (forall a, In a (extractions (snd (analysis_of working sale_email))) ->
                fst a = body_by_rule (Some sale_text) (Some sale_markup))
  /\ (blank (Some sale_text) = false ->
      Some (body_by_rule (Some sale_text) (Some sale_markup)) = Some sale_text)
  /\ (blank (Some sale_text) = true ->
      body_by_rule (Some sale_text) (Some sale_markup)
      = part_or_empty (Some sale_markup)).
Proof.
  split; [evaluated |].
  apply plain_text_preferred
    with (P := sample_python) (e := working) (h := [])
         (parsed_data := VDict [])
         (result := fst (analysis_of working sale_email));
    evaluated.
Defined.

Lemma ledger_unavailable_witness :
  (extracted (snd (analysis_of no_credentials sale_email)) = true
   /\ connected (snd (analysis_of no_credentials sale_email)) = false)
  /\ exists email_body r n p,
    filter (fun a => attempt_ok (snd a))
      (extractions (snd (analysis_of no_credentials sale_email)))
    = [(email_body, Ok r)]
    /\ getitem sample_python r (py "pokemon_name") = Ok n
    /\ getitem sample_python r (py "payout") = Ok p
    /\ field "email_type" (fst (analysis_of no_credentials sale_email))
       = Some (VStr (py "sheets_error"))
    /\ field "confidence" (fst (analysis_of no_credentials sale_email))
       = Some (VFloat 0.8)
    /\ field "extracted_data" (fst (analysis_of no_credentials sale_email))
       = Some (VDict [(py "pokemon_name", n); (py "payout", p)])
    /\ connect_attempts (snd (analysis_of no_credentials sale_email)) = 3
    /\ appends (snd (analysis_of no_credentials sale_email)) = []
    /\ exists tx tc,
        snd (analysis_of no_credentials sale_email) = tx ++ tc
        /\ ledger_calls tx = []
        /\ extractions tc = []
        /\ List.length (extractions tx) <= 3.
Proof.
  split; [evaluated |].
  apply ledger_unavailable
    with (e := no_credentials) (h := []) (email_details := sale_email)
         (parsed_data := VDict []);
    evaluated.
Defined.



Lemma persisted_row_normalized_witness :
  In ([py "2024-01-15 10:30:05"; py "Unknown Pokemon"; py "0"], Ok tt)
    (appends (snd (analysis_of blank_name_llm sale_email)))
  /\ (exists email_body r n p now,
     filter (fun a => attempt_ok (snd a))
       (extractions (snd (analysis_of blank_name_llm sale_email)))
     = [(email_body, Ok r)]
     /\ getitem sample_python r (py "pokemon_name") = Ok n /\ truthy n = true
     /\ getitem sample_python r (py "payout") = Ok p /\ truthy p = true
     /\ [py "2024-01-15 10:30:05"; py "Unknown Pokemon"; py "0"]
        = [strftime now; clean_name (strip (str sample_python n));
           clean_payout (strip (str sample_python p))]
     /\ clean_name (strip (str sample_python n)) <> []
     /\ clean_payout (strip (str sample_python p)) <> [])
  /\ (forall s, (s = [] \/ s = py "N/A" ->
                 clean_name s = py "Unknown Pokemon" /\ clean_payout s = py "0")
             /\ (s <> [] -> s <> py "N/A" ->
                 clean_name s = s /\ clean_payout s = s)).
Proof.
  split; [vm_compute; left; reflexivity |].
  apply persisted_row_normalized
    with (e := blank_name_llm) (h := []) (email_details := sale_email)
         (parsed_data := VDict [])
         (result := fst (analysis_of blank_name_llm sale_email))
         (reply := Ok tt).
  - evaluated.
  - vm_compute. left. reflexivity.
Defined.


Lemma health_round_trip_witness :
  run working health [] = first_health
  /\ field "google_sheets" (snd (fst first_health)) = Some (VStr (py "connected"))
  /\ field "google_sheets" (snd (fst second_health)) = Some (VStr (py "connected"))
  /\ exists now now',
      rows_written (snd first_health ++ snd second_health)
      = [test_row now; test_row now'].
Proof.
  split; [reflexivity |]. split; [reflexivity |]. split; [reflexivity |].
  eapply health_round_trip
    with (e := working) (h := [])
         (status := fst (fst first_health)) (body := snd (fst first_health))
         (tr := snd first_health)
         (status' := fst (fst second_health)) (body' := snd (fst second_health))
         (tr' := snd second_health);
    evaluated.
Defined.

Lemma connect_writes_nothing_witness :
  (run working initialize_google_sheets [] = first_connect
   /\ run working initialize_google_sheets ([] ++ snd first_connect)
      = second_connect)
  /\ appends (snd first_connect) = []
  /\ sheet_after [test_row morning] (snd first_connect) = [test_row morning]
  /\ appends (snd first_connect ++ snd second_connect) = []
  /\ sheet_after [test_row morning] (snd first_connect ++ snd second_connect)
     = [test_row morning].
Proof.
  split; [split; reflexivity |].
  apply connect_writes_nothing
    with (e := working) (h := [])
         (cw := fst first_connect) (cw' := fst second_connect);
    evaluated.
Defined.

(** C3, as stated, fails. The extractor output of the specification's
    example, an empty name with the payout "N/A", does not pass the check of
    line 133: after three attempts the result is an [llm_error] and nothing
    was appended.  A name of one space passes and is normalized, to "Unknown
    Pokemon", which is not the sentinel "Unknown Item". *)
Lemma empty_name_never_persisted :
  field "email_type" (fst (analysis_of empty_name_llm sale_email))
  = Some (VStr (py "llm_error"))
  /\ List.length (extractions (snd (analysis_of empty_name_llm sale_email))) = 3
  /\ appends (snd (analysis_of empty_name_llm sale_email)) = []
  /\ rows_written (snd (analysis_of blank_name_llm sale_email))
     = [[py "2024-01-15 10:30:05"; py "Unknown Pokemon"; py "0"]]
  /\ pystr_eqb (py "Unknown Pokemon") (py "Unknown Item") = false.
Proof. evaluated. Qed.

Lemma malformed_body_is_error_witness :
  body_parts malformed_email = None
  /\ field "email_type" (fst (analysis_of working malformed_email))
     = Some (VStr (py "error"))
  /\ field "confidence" (fst (analysis_of working malformed_email))
     = Some (VFloat 0.0)
  /\ snd (analysis_of working malformed_email) = []
  /\ exists v,
      is_dict v = false
      /\ field "error" (fst (analysis_of working malformed_email))
         = Some (VStr (py "LLM Analysis Error: '" ++ type_name v
                       ++ py "' object has no attribute 'get'")).
Proof.
  split; [reflexivity |].
  apply malformed_body_is_error
    with (P := sample_python) (e := working) (h := [])
         (email_details := malformed_email) (parsed_data := VDict []);
    evaluated.
Defined.

Lemma non_text_body_is_error_witness :
  (body_parts numeric_email = Some (Some (VInt 135), None)
   /\ truthy (body_by_rule (Some (VInt 135)) None) = true
   /\ sliceable (body_by_rule (Some (VInt 135)) None) = false)
  /\ field "email_type" (fst (analysis_of working numeric_email))
     = Some (VStr (py "error"))
  /\ field "confidence" (fst (analysis_of working numeric_email))
     = Some (VFloat 0.0)
  /\ field "error" (fst (analysis_of working numeric_email))
     = Some (VStr (py "LLM Analysis Error: "
                   ++ slice_error sample_python
                        (body_by_rule (Some (VInt 135)) None)))
  /\ snd (analysis_of working numeric_email) = [].
Proof.
  split; [evaluated |].
  apply non_text_body_is_error
    with (e := working) (h := []) (email_details := numeric_email)
         (parsed_data := VDict []);
    evaluated.
Defined.


Lemma connection_error_hides_cause_witness :
  (extracted (snd (analysis_of no_credentials sale_email)) = true
   /\ connected (snd (analysis_of no_credentials sale_email)) = false)
  /\ field "error" (fst (analysis_of no_credentials sale_email))
     = Some (VStr (py "Google Sheets connection failed after 3 attempts: Failed to initialize Google Sheets")).
Proof.
  split; [evaluated |].
  apply connection_error_hides_cause
    with (P := sample_python) (e := no_credentials) (h := [])
         (email_details := sale_email) (parsed_data := VDict [])
         (tr := snd (analysis_of no_credentials sale_email));
    evaluated.
Defined.

Lemma append_error_reports_last_witness :
  (connected (snd (analysis_of quota_exceeded sale_email)) = true
   /\ appended (snd (analysis_of quota_exceeded sale_email)) = false)
  /\ exists row m1 m2 m3,
      appends (snd (analysis_of quota_exceeded sale_email))
      = [(row, Raise m1); (row, Raise m2); (row, Raise m3)]
      /\ field "error" (fst (analysis_of quota_exceeded sale_email))
         = Some (VStr (py "Failed to append to Google Sheets after 3 attempts: "
                       ++ m3)).
Proof.
  split; [evaluated |].
  apply append_error_reports_last
    with (P := sample_python) (e := quota_exceeded) (h := [])
         (email_details := sale_email) (parsed_data := VDict []);
    evaluated.
Defined.

